(** * DeFi risk agent: the tool registry, configuration, agent and executor

    A shallow embedding of [src/tools.py], [src/config.py],
    [src/agent_executor.py], [src/agent.py], [src/utils.py] and
    [main.py].

    Python values that come out of [response.json()] are modelled by the
    type [json]; a tool is a computation in a small monad [io] that
    threads the log of outbound requests and may raise a Python
    exception.  Every tool body is wrapped in [try_except], exactly as
    the source wraps it in [try: ... except Exception as e: ...]. *)

From Stdlib Require Import ZArith QArith String Ascii List Lia DecimalString.
From stdpp Require Import base strings gmap.
Import ListNotations.

#[local] Set Warnings "-register-all".

Local Open Scope string_scope.
Local Open Scope list_scope.
Local Open Scope Z_scope.

(** ** Python floats

    The tools convert upstream amounts with [float(...)], add them with
    the builtin [sum], divide, multiply, compare and format them.  These
    are operations of the interpreter, not of the repository, so they
    are taken as an interface.  The three laws are the only facts about
    binary64 arithmetic the development relies on: a number above zero
    is not zero, [x <= y] excludes [y < x], and a number above the
    integer [n] is above every smaller integer.  All three hold for
    IEEE doubles (a NaN satisfies none of the premises). *)

Class PyFloat := {
  float : Type;
  (** [float(n)] for an integer [n] that is in range *)
  f_of_Z : Z -> float;
  (** whether [float(n)] is defined ([OverflowError] otherwise) *)
  f_fits : Z -> bool;
  (** [float(s)] for a string [s]; [None] is [ValueError] *)
  f_parse : string -> option float;
  f_mul : float -> float -> float;
  f_div : float -> float -> float;
  (** the builtin [sum] on a non-empty list of floats *)
  f_sum : list float -> float;
  f_ltb : float -> float -> bool;
  f_leb : float -> float -> bool;
  (** [x == 0], the falsy floats *)
  f_is_zero : float -> bool;
  (** [format(x, ".2f")] *)
  f_fmt2 : float -> string;
  f_pos_nonzero : forall x, f_ltb (f_of_Z 0) x = true -> f_is_zero x = false;
  f_leb_not_gt : forall x y, f_leb x y = true -> f_ltb y x = false;
  f_gt_mono : forall x m n,
    m <= n -> f_ltb (f_of_Z n) x = true -> f_ltb (f_of_Z m) x = true
}.

(** An instance with exact rational arithmetic, used to evaluate the
    tools on concrete payloads.  It has no rounding, no overflow and no
    NaN; [f_parse] reads plain decimal numerals ([-12], [3.50]) only. *)

Module ExactFloat.

Definition is_digit (c : ascii) : bool :=
  let n := nat_of_ascii c in ((48 <=? n) && (n <=? 57))%nat.

(** value and number of digits of a digit string *)
Fixpoint digits (s : string) (acc : Z) (len : nat) : option (Z * nat) :=
  match s with
  | EmptyString => Some (acc, len)
  | String c s' =>
      if is_digit c
      then digits s' (10 * acc + Z.of_nat (nat_of_ascii c - 48)) (S len)
      else None
  end.

(** [split_dot s] cuts [s] at its first full stop *)
Fixpoint split_dot (s : string) : string * option string :=
  match s with
  | EmptyString => (EmptyString, None)
  | String c s' =>
      if Ascii.eqb c "."%char then (EmptyString, Some s')
      else let '(a, b) := split_dot s' in (String c a, b)
  end.

Definition parse_unsigned (s : string) : option Q :=
  let '(ip, fp) := split_dot s in
  match digits ip 0 0, digits (default EmptyString fp) 0 0 with
  | Some (i, li), Some (f, lf) =>
      if (li + lf =? 0)%nat then None
      else Some (Qred (inject_Z i + (f # Pos.of_nat (10 ^ lf)))%Q)
  | _, _ => None
  end.

Definition parse (s : string) : option Q :=
  match s with
  | String "-" s' => option_map Qopp (parse_unsigned s')
  | String "+" s' => parse_unsigned s'
  | _ => parse_unsigned s
  end.

(** nearest integer, ties to even *)
Definition round_half_even (x : Q) : Z :=
  let n := Qnum x in
  let d := Zpos (Qden x) in
  let q := n / d in
  let r := n mod d in
  match 2 * r ?= d with
  | Lt => q
  | Gt => q + 1
  | Eq => if Z.even q then q else q + 1
  end.

Definition two_digits (z : Z) : string :=
  (if z <? 10 then "0" else "") +:+ NilZero.string_of_int (Z.to_int z).

Definition fmt2 (x : Q) : string :=
  let c := Z.abs (round_half_even (x * inject_Z 100)%Q) in
  (if Qnum x <? 0 then "-" else "")
  +:+ NilZero.string_of_int (Z.to_int (c / 100)) +:+ "." +:+ two_digits (c mod 100).

Definition ltb (x y : Q) : bool := negb (Qle_bool y x).

Definition is_zero (x : Q) : bool := Qnum x =? 0.

Lemma pos_nonzero (x : Q) : ltb (inject_Z 0) x = true -> is_zero x = false.
Proof.
  destruct x as [n d]. unfold ltb, is_zero, Qle_bool. simpl.
  rewrite Z.mul_1_r. intros Hlt. apply Z.eqb_neq. intros ->.
  discriminate Hlt.
Qed.

Lemma leb_not_gt (x y : Q) : Qle_bool x y = true -> ltb y x = false.
Proof. unfold ltb. now intros ->. Qed.

Lemma gt_mono (x : Q) (m n : Z) :
  m <= n -> ltb (inject_Z n) x = true -> ltb (inject_Z m) x = true.
Proof.
  intros Hmn. unfold ltb.
  destruct (Qle_bool x (inject_Z m)) eqn:Hm; [ | reflexivity ].
  apply Qle_bool_iff in Hm.
  assert (Hn : (x <= inject_Z n)%Q).
  { apply Qle_trans with (inject_Z m); [exact Hm | ]. now rewrite <- Zle_Qle. }
  apply Qle_bool_iff in Hn. now rewrite Hn.
Qed.

#[export] Instance exact : PyFloat := {|
  float := Q;
  f_of_Z := inject_Z;
  f_fits := fun _ => true;
  f_parse := parse;
  f_mul := fun x y => Qred (x * y)%Q;
  f_div := fun x y => Qred (x / y)%Q;
  f_sum := fun l => Qred (fold_left Qplus l 0%Q);
  f_ltb := ltb;
  f_leb := Qle_bool;
  f_is_zero := is_zero;
  f_fmt2 := fmt2;
  f_pos_nonzero := pos_nonzero;
  f_leb_not_gt := leb_not_gt;
  f_gt_mono := gt_mono
|}.

End ExactFloat.

(** ** Exceptions *)

Inductive exn_class :=
| AttributeError | TypeError | ValueError | OverflowError
| ZeroDivisionError | KeyError | IndexError | JSONDecodeError
| HTTPXError | PlainException.

Record exn := Exn { exn_class_of : exn_class; exn_msg : string }.

(** [str(e)] *)
Definition str_exn (e : exn) : string := exn_msg e.

(** [str(n)] for an integer *)
Definition str_Z (z : Z) : string := NilZero.string_of_int (Z.to_int z).

(** ** Strings *)

Definition lower_ascii (c : ascii) : ascii :=
  let n := nat_of_ascii c in
  if ((65 <=? n) && (n <=? 90))%nat then ascii_of_nat (n + 32) else c.

(** [s.lower()], on the ASCII letters *)
Fixpoint lower (s : string) : string :=
  match s with
  | EmptyString => EmptyString
  | String c s' => String (lower_ascii c) (lower s')
  end.

(** [needle in hay] for strings *)
Fixpoint contains (needle hay : string) : bool :=
  String.prefix needle hay ||
  match hay with
  | EmptyString => false
  | String _ hay' => contains needle hay'
  end.

(** [s[:n]], for a text of ASCII characters: one byte a character *)
Fixpoint str_take (n : nat) (s : string) : string :=
  match n, s with
  | S n', String c s' => String c (str_take n' s')
  | _, _ => EmptyString
  end.

(** the characters of a string, as Python iterates them *)
Fixpoint chars (s : string) : list string :=
  match s with
  | EmptyString => []
  | String c s' => String c EmptyString :: chars s'
  end.

(** [repr(s)] for a string.  The quote is the apostrophe, unless the
    text has an apostrophe and no double quote; the quote and the
    backslash are escaped, tab, newline and return print as [\t],
    [\n] and [\r], and the other control characters as [\xhh].
    Bytes above 127 are kept as they are: they are taken to encode
    printable characters. *)
Definition apostrophe : ascii := ascii_of_nat 39.

Definition double_quote : ascii := ascii_of_nat 34.

Definition backslash : ascii := ascii_of_nat 92.

Fixpoint has_char (c : ascii) (s : string) : bool :=
  match s with
  | EmptyString => false
  | String c' s' => Ascii.eqb c c' || has_char c s'
  end.

Definition hex_digit (n : nat) : ascii :=
  if (n <? 10)%nat then ascii_of_nat (48 + n) else ascii_of_nat (87 + n).

Definition repr_char (quote c : ascii) : string :=
  let n := nat_of_ascii c in
  if Ascii.eqb c quote || Ascii.eqb c backslash
  then String backslash (String c EmptyString)
  else if (n =? 9)%nat then String backslash "t"
  else if (n =? 10)%nat then String backslash "n"
  else if (n =? 13)%nat then String backslash "r"
  else if (n <? 32)%nat || (n =? 127)%nat
  then String backslash
         (String "x" (String (hex_digit (n / 16))
                        (String (hex_digit (n mod 16)) EmptyString)))
  else String c EmptyString.

Fixpoint repr_body (quote : ascii) (s : string) : string :=
  match s with
  | EmptyString => EmptyString
  | String c s' => repr_char quote c +:+ repr_body quote s'
  end.

Definition py_repr (s : string) : string :=
  let quote :=
    if has_char apostrophe s && negb (has_char double_quote s)
    then double_quote else apostrophe in
  String quote (repr_body quote s +:+ String quote EmptyString).



Section Tools.

Context `{PyFloat}.

(** ** JSON values, as [response.json()] returns them *)

Inductive json :=
| JNull
| JBool (b : bool)
| JInt (z : Z)
| JFloat (f : float)
| JStr (s : string)
| JList (l : list json)
| JObj (kv : list (string * json)).

(** A dict is kept as the list of its items in insertion order; the
    first binding of a key is the one [get] sees. *)
Fixpoint assoc (k : string) (kv : list (string * json)) : option json :=
  match kv with
  | [] => None
  | (k', v) :: kv' => if String.eqb k k' then Some v else assoc k kv'
  end.

Definition type_name (v : json) : string :=
  match v with
  | JNull => "NoneType"
  | JBool _ => "bool"
  | JInt _ => "int"
  | JFloat _ => "float"
  | JStr _ => "str"
  | JList _ => "list"
  | JObj _ => "dict"
  end.

(** Python truthiness: [None], [False], zero, and the empty string,
    list and dict are falsy. *)
Definition truthy (v : json) : bool :=
  match v with
  | JNull => false
  | JBool b => b
  | JInt z => negb (z =? 0)
  | JFloat f => negb (f_is_zero f)
  | JStr s => negb (String.eqb s "")
  | JList l => match l with [] => false | _ => true end
  | JObj kv => match kv with [] => false | _ => true end
  end.

(** [v == s] for a string literal [s] *)
Definition eq_str (v : json) (s : string) : bool :=
  match v with
  | JStr s' => String.eqb s' s
  | _ => false
  end.

(** ** The network *)

(** A GET request: its address and query parameters.  The timeout and
    the redirect option of the call are not part of the model; a call
    that times out is a call that raises. *)
Record request := Request { url : string; params : list (string * string) }.

Record response := Response {
  status_code : Z;
  (** [response.text] *)
  text : string;
  (** [response.json()]; [None] when the body does not parse *)
  json_body : option json
}.

(** What [client.get] does for a request: it raises or it answers. *)
Definition network := request -> exn + response.

(** ** Computations

    Two layers, as in the source: the operations on values either
    return or raise ([py]); a tool body also awaits the network ([io]),
    which is modelled by the log of the requests sent so far. *)

Definition py (A : Type) : Type := (exn + A)%type.

Definition ret {A} (a : A) : py A := inr a.

Definition raise {A} (e : exn) : py A := inl e.

Definition bind {A B} (c : py A) (k : A -> py B) : py B :=
  match c with
  | inr a => k a
  | inl e => inl e
  end.

Definition io (A : Type) : Type :=
  network -> list request -> list request * py A.

Definition lift {A} (c : py A) : io A := fun _ log => (log, c).

Definition io_bind {A B} (c : io A) (k : A -> io B) : io B :=
  fun net log =>
    match c net log with
    | (log', inr a) => k a net log'
    | (log', inl e) => (log', inl e)
    end.

(** [try: body except Exception as e: handler e] *)
Definition try_except {A} (body : io A) (handler : exn -> io A) : io A :=
  fun net log =>
    match body net log with
    | (log', inr a) => (log', inr a)
    | (log', inl e) => handler e net log'
    end.

(** [await client.get(url, params=params, timeout=10.0)] *)
Definition client_get (req : request) : io response :=
  fun net log => (log ++ [req], net req).

Notation "'let*' x ':=' c 'in' k" := (bind c (fun x => k))
  (at level 10, x name, c at level 100, k at level 200).

Notation "'let!' x ':=' c 'in' k" := (io_bind c (fun x => k))
  (at level 10, x name, c at level 100, k at level 200).

Fixpoint mapM {A B} (f : A -> py B) (l : list A) : py (list B) :=
  match l with
  | [] => ret []
  | a :: l' => let* b := f a in let* bs := mapM f l' in ret (b :: bs)
  end.

Fixpoint foldM {A B} (f : A -> B -> py A) (a : A) (l : list B) : py A :=
  match l with
  | [] => ret a
  | b :: l' => let* a' := f a b in foldM f a' l'
  end.

(** Running a tool against a network, from an empty log. *)
Definition run {A} (c : io A) (net : network) : list request * py A := c net [].

(** The value a tool returns on a network; [JNull] stands in when the
    tool raises. *)
Definition returned (c : io json) (net : network) : json :=
  match snd (run c net) with
  | inr v => v
  | inl _ => JNull
  end.

(** ** Python operations on dynamic values *)

(** [response.json()] *)
Definition response_json (r : response) : py json :=
  match json_body r with
  | Some v => ret v
  | None => raise (Exn JSONDecodeError "Expecting value: line 1 column 1 (char 0)")
  end.

(** the value of [k] among the items [kv], or [default] *)
Definition get_or (k : string) (kv : list (string * json)) (default : json) : json :=
  match assoc k kv with
  | Some v => v
  | None => default
  end.

(** [d.get(k, default)]; only a dict has [get] *)
Definition py_get (d : json) (k : string) (default : json) : py json :=
  match d with
  | JObj kv => ret (get_or k kv default)
  | _ => raise (Exn AttributeError
                 ("'" +:+ type_name d +:+ "' object has no attribute 'get'"))
  end.

(** [float(v)] *)
Definition py_float (v : json) : py float :=
  match v with
  | JFloat f => ret f
  | JInt z =>
      if f_fits z then ret (f_of_Z z)
      else raise (Exn OverflowError "int too large to convert to float")
  | JBool b => ret (f_of_Z (if b then 1 else 0))
  | JStr s =>
      match f_parse s with
      | Some f => ret f
      | None =>
          raise (Exn ValueError ("could not convert string to float: " +:+ py_repr s))
      end
  | _ => raise (Exn TypeError
                 ("float() argument must be a string or a real number, not '"
                  +:+ type_name v +:+ "'"))
  end.

(** [v[:n]]: lists and strings slice, nothing else does *)
Definition py_slice (v : json) (n : nat) : py json :=
  match v with
  | JList l => ret (JList (firstn n l))
  | JStr s => ret (JStr (str_take n s))
  | JObj _ => raise (Exn TypeError "unhashable type: 'slice'")
  | _ => raise (Exn TypeError ("'" +:+ type_name v +:+ "' object is not subscriptable"))
  end.

(** the elements a [for] loop over [v] visits *)
Definition py_iter (v : json) : py (list json) :=
  match v with
  | JList l => ret l
  | JStr s => ret (map JStr (chars s))
  | JObj kv => ret (map (fun p => JStr (fst p)) kv)
  | _ => raise (Exn TypeError ("'" +:+ type_name v +:+ "' object is not iterable"))
  end.

(** [len(v)] *)
Definition py_len (v : json) : py Z :=
  match v with
  | JList l => ret (Z.of_nat (length l))
  | JStr s => ret (Z.of_nat (String.length s))
  | JObj kv => ret (Z.of_nat (length kv))
  | _ => raise (Exn TypeError ("object of type '" +:+ type_name v +:+ "' has no len()"))
  end.

(** [v[0]] *)
Definition py_index0 (v : json) : py json :=
  match v with
  | JList (x :: _) => ret x
  | JList [] => raise (Exn IndexError "list index out of range")
  | JStr (String c _) => ret (JStr (String c EmptyString))
  | JStr EmptyString => raise (Exn IndexError "string index out of range")
  | JObj kv => raise (Exn KeyError "0")
  | _ => raise (Exn TypeError ("'" +:+ type_name v +:+ "' object is not subscriptable"))
  end.

(** [sum(float(...) for ...)]: the start value is the integer [0] *)
Definition py_sum (l : list float) : json :=
  match l with
  | [] => JInt 0
  | _ => JFloat (f_sum l)
  end.

(** [v > n] for an integer literal [n] and a number [v] *)
Definition py_gt (v : json) (n : Z) : bool :=
  match v with
  | JFloat f => f_ltb (f_of_Z n) f
  | JInt z => n <? z
  | _ => false
  end.

(** [a / b * 100].  The tools reach it with floats only: [b] is a sum
    over a non-empty list and [a] such a sum or a converted amount. *)
Definition py_share (a b : json) : py json :=
  match a, b with
  | JFloat x, JFloat y =>
      if f_is_zero y then raise (Exn ZeroDivisionError "float division by zero")
      else ret (JFloat (f_mul (f_div x y) (f_of_Z 100)))
  | _, _ => raise (Exn TypeError "unsupported operand type(s) for /")
  end.

(** [f"{v:.2f}"] for a number [v] *)
Definition py_fmt2 (v : json) : string :=
  match v with
  | JFloat f => f_fmt2 f
  | JInt z => str_Z z +:+ ".00"
  | _ => ""
  end.


(** ** The tools of [src/tools.py] *)

Definition DEXSCREENER_API : string := "https://api.dexscreener.com/latest/dex".
Definition SLOWMIST_API : string := "https://hacked.slowmist.io".
Definition HELIUS_RPC : string := "https://rpc.helius.so".

(** The handler every tool but three ends with:
    [except Exception as e: return {"status": "error", "message": str(e)}] *)
Definition error_result (e : exn) : io json :=
  lift (ret (JObj [("status", JStr "error"); ("message", JStr (str_exn e))])).

Definition error_result_note (note : string) (e : exn) : io json :=
  lift (ret (JObj [("status", JStr "error"); ("message", JStr (str_exn e));
                   ("note", JStr note)])).

Definition goplus_request (token_address : string) : request :=
  Request "https://api.gopluslabs.io/api/v1/token_security"
          [("chain_id", "solana"); ("addresses", token_address)].

Definition analyze_token_security (token_address chain : string) : io json :=
  try_except
    (let! response := client_get (goplus_request token_address) in
     lift (if status_code response =? 200 then
       let* data := response_json response in
       let* result := py_get data "result" (JObj []) in
       let* token_data := py_get result token_address (JObj []) in
       if truthy token_data then
         let* mint := py_get token_data "is_mint_authority_renounced" (JStr "unknown") in
         let* freeze := py_get token_data "is_freeze_authority_renounced" (JStr "unknown") in
         let* liq := py_get token_data "liquidity_type" (JStr "unknown") in
         let* ratio := py_get token_data "owner_balance_holder_ratio" (JInt 0) in
         let* renounced := py_get token_data "is_mint_authority_renounced" JNull in
         ret (JObj [("status", JStr "success");
                    ("token", JStr token_address);
                    ("security_metrics",
                     JObj [("mint_authority", mint);
                           ("freeze_authority", freeze);
                           ("liquidity_type", liq);
                           ("owner_balance_holder_ratio", ratio)]);
                    ("risk_level",
                     JStr (if negb (truthy renounced) then "high" else "medium"))])
       else
         ret (JObj [("status", JStr "not_found");
                    ("message", JStr "Token not found in GoPlus database (may be a new/unlisted token)");
                    ("note", JStr "Use get_token_details() instead for basic token info")])
     else
       ret (JObj [("status", JStr "error");
                  ("message", JStr ("GoPlus API error: " +:+ str_Z (status_code response)))])))
    error_result.

Definition solscan_request (token_address : string) : request :=
  Request ("https://api.solscan.io/token/meta?tokenAddress=" +:+ token_address) [].

Definition jupiter_request (token_address : string) : request :=
  Request ("https://tokens.jup.ag/token/" +:+ token_address) [].

Definition get_token_metadata_and_security (token_address : string) : io json :=
  try_except
    (let! response := client_get (solscan_request token_address) in
     if status_code response =? 200 then
       lift (
       let* data := response_json response in
       let* ok := py_get data "success" JNull in
       if truthy ok then
         let* token_data := py_get data "data" (JObj []) in
         let* name := py_get token_data "name" (JStr "Unknown") in
         let* symbol := py_get token_data "symbol" (JStr "?") in
         let* decimals := py_get token_data "decimals" (JInt 0) in
         let* logo := py_get token_data "icon" (JStr "") in
         let* supply := py_get token_data "supply" (JInt 0) in
         let* holders := py_get token_data "holder" (JInt 0) in
         ret (JObj [("status", JStr "success");
                    ("token", JStr token_address);
                    ("source", JStr "Solscan");
                    ("metadata",
                     JObj [("name", name); ("symbol", symbol);
                           ("decimals", decimals); ("logo", logo)]);
                    ("supply_info",
                     JObj [("total_supply", supply); ("holders", holders)])])
       else
         ret (JObj [("status", JStr "not_found");
                    ("message", JStr "Token not found on Solscan")]))
     else
       let! response := client_get (jupiter_request token_address) in
       lift (
       if status_code response =? 200 then
         let* data := response_json response in
         let* name := py_get data "name" (JStr "Unknown") in
         let* symbol := py_get data "symbol" (JStr "?") in
         let* decimals := py_get data "decimals" (JInt 0) in
         let* logo := py_get data "logoURI" (JStr "") in
         ret (JObj [("status", JStr "success");
                    ("token", JStr token_address);
                    ("source", JStr "Jupiter");
                    ("metadata",
                     JObj [("name", name); ("symbol", symbol);
                           ("decimals", decimals); ("logo", logo)])])
       else
         ret (JObj [("status", JStr "error");
                    ("message", JStr "Token metadata APIs unavailable")])))
    error_result.

Definition analyze_token_with_rugcheck (token_address : string) : io json :=
  try_except
    (let! response := client_get
         (Request ("https://rugcheck.xyz/token/" +:+ token_address) []) in
     lift (if status_code response =? 200 then
       let html := text response in
       if contains "Risk" html || contains "risk" html then
         ret (JObj [("status", JStr "success");
                    ("token", JStr token_address);
                    ("source", JStr "Rugcheck (Web)");
                    ("note", JStr "Data retrieved from web interface");
                    ("recommendation",
                     JStr ("Visit https://rugcheck.xyz/token/" +:+ token_address
                           +:+ " for full analysis"))])
       else
         ret (JObj [("status", JStr "not_found");
                    ("message", JStr "Token not indexed on Rugcheck")])
     else
       ret (JObj [("status", JStr "not_found");
                  ("message", JStr "Token not found on Rugcheck")])))
    (error_result_note "Rugcheck may be temporarily unavailable").

(** [pair.get(outer, {}).get(inner, 0)] *)
Definition get2 (pair : json) (outer inner : string) : py json :=
  let* o := py_get pair outer (JObj []) in
  py_get o inner (JInt 0).

Definition dexscreener_search (token_address : string) : request :=
  Request (DEXSCREENER_API +:+ "/search") [("q", token_address)].

Definition get_token_holders (token_address : string) : io json :=
  try_except
    (let! response := client_get (dexscreener_search token_address) in
     lift (if status_code response =? 200 then
       let* data := response_json response in
       let* pairs := py_get data "pairs" (JList []) in
       if truthy pairs then
         let* pair := py_index0 pairs in
         let* liquidity := get2 pair "liquidity" "usd" in
         let* volume := get2 pair "volume" "h24" in
         let* fdv := py_get pair "fdv" (JInt 0) in
         let* market_cap := py_get pair "marketCap" (JInt 0) in
         ret (JObj [("status", JStr "success");
                    ("token", JStr token_address);
                    ("liquidity_usd", liquidity);
                    ("volume_24h", volume);
                    ("fdv", fdv);
                    ("market_cap", market_cap)])
       else
         ret (JObj [("status", JStr "not_found");
                    ("message", JStr "Token not found on DexScreener")])
     else
       ret (JObj [("status", JStr "error");
                  ("message", JStr ("API error: " +:+ str_Z (status_code response)))])))
    error_result.

(** [pair.get("txns", {}).get("m5", {}).get(side, 0) if pair.get("txns") else 0] *)
Definition txn_pressure (pair : json) (side : string) : py json :=
  let* txns := py_get pair "txns" JNull in
  if truthy txns then
    let* t := py_get pair "txns" (JObj []) in
    let* m5 := py_get t "m5" (JObj []) in
    py_get m5 side (JInt 0)
  else ret (JInt 0).

Definition get_trading_metrics (token_address : string) : io json :=
  try_except
    (let! response := client_get (dexscreener_search token_address) in
     lift (if status_code response =? 200 then
       let* data := response_json response in
       let* pairs := py_get data "pairs" (JList []) in
       if truthy pairs then
         let* pair := py_index0 pairs in
         let* price_change := py_get pair "priceChange" (JObj []) in
         let* pc5 := py_get price_change "m5" (JInt 0) in
         let* pc1 := py_get price_change "h1" (JInt 0) in
         let* pc24 := py_get price_change "h24" (JInt 0) in
         let* v5 := get2 pair "volume" "m5" in
         let* v1 := get2 pair "volume" "h1" in
         let* v24 := get2 pair "volume" "h24" in
         let* buys := txn_pressure pair "buys" in
         let* sells := txn_pressure pair "sells" in
         ret (JObj [("status", JStr "success");
                    ("token", JStr token_address);
                    ("trading_metrics",
                     JObj [("price_change_5m", pc5);
                           ("price_change_1h", pc1);
                           ("price_change_24h", pc24);
                           ("volume_5m", v5);
                           ("volume_1h", v1);
                           ("volume_24h", v24);
                           ("buy_pressure", buys);
                           ("sell_pressure", sells)])])
       else
         ret (JObj [("status", JStr "not_found");
                    ("message", JStr "Token not found")])
     else
       ret (JObj [("status", JStr "error");
                  ("message", JStr ("API error: " +:+ str_Z (status_code response)))])))
    error_result.

(** [float(pair.get("priceUsd", 0)) if pair.get("priceUsd") else 0] *)
Definition price_usd (pair : json) : py json :=
  let* p := py_get pair "priceUsd" JNull in
  if truthy p then
    let* q := py_get pair "priceUsd" (JInt 0) in
    let* f := py_float q in
    ret (JFloat f)
  else ret (JInt 0).

Definition get_token_details (token_address : string) : io json :=
  try_except
    (let! response := client_get (dexscreener_search token_address) in
     lift (if status_code response =? 200 then
       let* data := response_json response in
       let* pairs := py_get data "pairs" (JList []) in
       if truthy pairs then
         let* pair := py_index0 pairs in
         let* base_token := py_get pair "baseToken" (JObj []) in
         let* name := py_get base_token "name" (JStr "Unknown") in
         let* symbol := py_get base_token "symbol" (JStr "Unknown") in
         let* price := price_usd pair in
         let* liquidity := get2 pair "liquidity" "usd" in
         let* market_cap := py_get pair "marketCap" (JInt 0) in
         let* fdv := py_get pair "fdv" (JInt 0) in
         let* created := py_get pair "pairCreatedAt" (JInt 0) in
         ret (JObj [("status", JStr "success");
                    ("token_info",
                     JObj [("name", name);
                           ("symbol", symbol);
                           ("address", JStr token_address);
                           ("price_usd", price);
                           ("liquidity_usd", liquidity);
                           ("market_cap", market_cap);
                           ("fdv", fdv);
                           ("pair_created_at", created)])])
       else
         ret (JObj [("status", JStr "not_found");
                    ("message", JStr "Token not found")])
     else
       ret (JObj [("status", JStr "error");
                  ("message", JStr ("API error: " +:+ str_Z (status_code response)))])))
    error_result.

(** The body of the loop of [get_trending_tokens]: the summary appended
    for one pair. *)
Definition trending_entry (pair : json) : py json :=
  let* price_change := py_get pair "priceChange" (JObj []) in
  let* base := py_get pair "baseToken" (JObj []) in
  let* symbol := py_get base "symbol" (JStr "?") in
  let* base' := py_get pair "baseToken" (JObj []) in
  let* address := py_get base' "address" (JStr "") in
  let* price := price_usd pair in
  let* pc24 := py_get price_change "h24" (JInt 0) in
  let* volume := get2 pair "volume" "h24" in
  let* liquidity := get2 pair "liquidity" "usd" in
  ret (JObj [("symbol", symbol);
             ("address", address);
             ("price_usd", price);
             ("price_change_24h", pc24);
             ("volume_24h", volume);
             ("liquidity_usd", liquidity)]).

(** [data.get("pairs", [])[:10] if data.get("pairs") else []] *)
Definition top_pairs (data : json) : py json :=
  let* p := py_get data "pairs" JNull in
  if truthy p then
    let* pairs := py_get data "pairs" (JList []) in
    py_slice pairs 10
  else ret (JList []).

Definition trending_request : request :=
  Request "https://api.dexscreener.com/latest/dex/tokens/solana" [].

Definition get_trending_tokens : io json :=
  try_except
    (let! response := client_get trending_request in
     lift (if status_code response =? 200 then
       let* data := response_json response in
       let* tokens := top_pairs data in
       let* pairs := py_iter tokens in
       let* trending := mapM trending_entry pairs in
       ret (JObj [("status", JStr "success");
                  ("trending_tokens", JList trending)])
     else
       ret (JObj [("status", JStr "error");
                  ("message", JStr ("API error: " +:+ str_Z (status_code response)))])))
    error_result.

(** [project_name or token_address[:8]] *)
Definition search_term (token_address : string) (project_name : option string) : string :=
  match project_name with
  | Some n => if String.eqb n "" then str_take 8 token_address else n
  | None => str_take 8 token_address
  end.

Definition check_security_incidents
    (token_address : string) (project_name : option string) : io json :=
  try_except
    (let term := search_term token_address project_name in
     let! response := client_get (Request (SLOWMIST_API +:+ "/") []) in
     lift (if status_code response =? 200 then
       let html := text response in
       if contains (lower term) (lower html) then
         ret (JObj [("status", JStr "warning");
                    ("token", JStr token_address);
                    ("message", JStr "Project mentioned in SlowMist incident database");
                    ("action", JStr "Review at https://hacked.slowmist.io/");
                    ("risk_level", JStr "high")])
       else
         ret (JObj [("status", JStr "clean");
                    ("token", JStr token_address);
                    ("message", JStr "No known security incidents found in SlowMist database");
                    ("risk_level", JStr "low")])
     else
       ret (JObj [("status", JStr "unknown");
                  ("message", JStr "Unable to check incident database at this time")])))
    (error_result_note "Check SlowMist manually at https://hacked.slowmist.io/").

Definition check_certik_audit_status (token_address : string) : io json :=
  try_except
    (let! response := client_get
         (Request ("https://api.certik.io/v1/tokens/solana/" +:+ token_address) []) in
     lift (if status_code response =? 200 then
       let* data := response_json response in
       let* audited := py_get data "audited" (JBool false) in
       let* audit_status := py_get data "audit_status" (JStr "Not Audited") in
       let* score := py_get data "security_score" (JInt 0) in
       let* date := py_get data "audit_date" (JStr "N/A") in
       let* a := py_get data "audited" JNull in
       ret (JObj [("status", JStr "success");
                  ("token", JStr token_address);
                  ("source", JStr "CertiK");
                  ("audit_info",
                   JObj [("audited", audited);
                         ("audit_status", audit_status);
                         ("security_score", score);
                         ("audit_date", date)]);
                  ("verdict",
                   JStr (if truthy a then "AUDITED ✅" else "NOT AUDITED ⚠️"))])
     else
       ret (JObj [("status", JStr "not_audited");
                  ("token", JStr token_address);
                  ("message", JStr "Token not found in CertiK audit database");
                  ("note", JStr "Lack of audit is a risk factor - especially for new tokens")])))
    (error_result_note "CertiK API may be temporarily unavailable").

(** [float(h.get("amount", 0))] *)
Definition amount_of (h : json) : py float :=
  let* a := py_get h "amount" (JInt 0) in
  py_float a.

(** [(total_top_10 / total_supply * 100) if total_supply > 0 else 0] *)
Definition top_10_percentage (total_top_10 total_supply : json) : py json :=
  if py_gt total_supply 0 then py_share total_top_10 total_supply
  else ret (JInt 0).

(** The nested conditional that fills ["concentration_risk"]. *)
Definition concentration_risk (p : json) : string :=
  if py_gt p 70 then "CRITICAL"
  else if py_gt p 50 then "HIGH"
  else if py_gt p 30 then "MEDIUM"
  else "LOW".

(** [f"{(float(h.get('amount', 0)) / total_supply * 100):.2f}%"] *)
Definition share_text (h total_supply : json) : py string :=
  let* f := amount_of h in
  let* p := py_share (JFloat f) total_supply in
  ret (py_fmt2 p +:+ "%").

(** The ["top_holder"] entry. *)
Definition top_holder (holders total_supply : json) : py json :=
  let* address :=
    (if truthy holders then
       let* h0 := py_index0 holders in py_get h0 "owner" JNull
     else ret (JStr "N/A")) in
  let* percentage :=
    (if truthy holders && py_gt total_supply 0 then
       let* h0 := py_index0 holders in
       let* t := share_text h0 total_supply in
       ret (JStr t)
     else ret (JStr "N/A")) in
  ret (JObj [("address", address); ("percentage", percentage)]).

(** One element of the ["top_10_holders"] comprehension. *)
Definition top_10_entry (total_supply h : json) : py json :=
  let* address := py_get h "owner" JNull in
  let* percentage :=
    (if py_gt total_supply 0 then
       let* t := share_text h total_supply in ret (JStr t)
     else ret (JStr "0%")) in
  ret (JObj [("address", address); ("percentage", percentage)]).

Definition helius_holders_request (token_address : string) : request :=
  Request (HELIUS_RPC +:+ "/v0/token-metadata/holders")
          [("mint", token_address); ("limit", str_Z 20)].

Definition get_token_holder_distribution_helius (token_address : string) : io json :=
  try_except
    (let! response := client_get (helius_holders_request token_address) in
     lift (if status_code response =? 200 then
       let* data := response_json response in
       let* holders := py_get data "holders" (JList []) in
       if truthy holders then
         let* first10 := py_slice holders 10 in
         let* hs10 := py_iter first10 in
         let* amounts10 := mapM amount_of hs10 in
         let total_top_10 := py_sum amounts10 in
         let* hs := py_iter holders in
         let* amounts := mapM amount_of hs in
         let total_supply := py_sum amounts in
         let* pct := top_10_percentage total_top_10 total_supply in
         let* total_holders := py_len holders in
         let* top := top_holder holders total_supply in
         let* first10' := py_slice holders 10 in
         let* hs10' := py_iter first10' in
         let* top10 := mapM (top_10_entry total_supply) hs10' in
         ret (JObj [("status", JStr "success");
                    ("token", JStr token_address);
                    ("source", JStr "Helius RPC");
                    ("holder_distribution",
                     JObj [("total_holders", JInt total_holders);
                           ("top_10_concentration", JStr (py_fmt2 pct +:+ "%"));
                           ("top_holder", top);
                           ("concentration_risk", JStr (concentration_risk pct))]);
                    ("top_10_holders", JList top10)])
       else
         ret (JObj [("status", JStr "no_data");
                    ("message", JStr "No holder data available")])
     else
       ret (JObj [("status", JStr "error");
                  ("message", JStr ("Helius API error: " +:+ str_Z (status_code response)));
                  ("fallback", JStr "Using DexScreener holder data instead")])))
    (error_result_note "Helius RPC may be temporarily unavailable").

(** The two accumulators of the loop of [get_token_transaction_history]. *)
Record tx_acc := TxAcc { large_tx_count : Z; suspicious_patterns : list json }.

(** the text an f-string prints for a string value *)
Definition str_of (v : json) : string :=
  match v with JStr s => s | _ => "" end.

(** One iteration of [for tx in transactions[:5]]. *)
Definition tx_step (acc : tx_acc) (tx : json) : py tx_acc :=
  let* tx_type := py_get tx "type" (JStr "unknown") in
  let* amount := amount_of tx in
  let large :=
    if f_ltb (f_of_Z 1000000) amount then large_tx_count acc + 1
    else large_tx_count acc in
  let suspicious :=
    if eq_str tx_type "SPAM" || eq_str tx_type "SCAM"
    then suspicious_patterns acc ++ [JStr ("Suspicious tx type: " +:+ str_of tx_type)]
    else suspicious_patterns acc in
  ret (TxAcc large suspicious).

Definition helius_transactions_request (token_address : string) (limit : Z) : request :=
  Request (HELIUS_RPC +:+ "/v0/addresses/" +:+ token_address +:+ "/transactions")
          [("limit", str_Z limit)].

Definition get_token_transaction_history (token_address : string) (limit : Z) : io json :=
  try_except
    (let! response := client_get (helius_transactions_request token_address limit) in
     lift (if status_code response =? 200 then
       let* data := response_json response in
       let* transactions := py_get data "transactions" (JList []) in
       let* first5 := py_slice transactions 5 in
       let* txs := py_iter first5 in
       let* acc := foldM tx_step (TxAcc 0 []) txs in
       let* recent := py_len transactions in
       let suspicious := JList (suspicious_patterns acc) in
       ret (JObj [("status", JStr "success");
                  ("token", JStr token_address);
                  ("source", JStr "Helius RPC");
                  ("transaction_analysis",
                   JObj [("recent_tx_count", JInt recent);
                         ("large_transactions", JInt (large_tx_count acc));
                         ("suspicious_patterns",
                          if truthy suspicious then suspicious
                          else JStr "None detected");
                         ("risk_level",
                          JStr (if (3 <? large_tx_count acc) || truthy suspicious
                                then "HIGH" else "LOW"))]);
                  ("recommendations",
                   if 3 <? large_tx_count acc
                   then JList [JStr "Monitor large transfers for potential dump activity";
                               JStr "Watch for sudden spikes in transaction volume"]
                   else JList [])])
     else
       ret (JObj [("status", JStr "error");
                  ("message", JStr ("Helius API error: " +:+ str_Z (status_code response)))])))
    error_result.

(** ** Reading results and payloads *)

(** [v[k]] when [v] is a dict that has the key *)
Definition field (k : string) (v : json) : option json :=
  match v with
  | JObj kv => assoc k kv
  | _ => None
  end.

Definition field2 (k1 k2 : string) (v : json) : option json :=
  match field k1 v with
  | Some o => field k2 o
  | None => None
  end.

(** [v[path]] is a dict that has every key of [ks]. *)
Definition has_fields (path : string) (ks : list string) (v : json) : bool :=
  match field path v with
  | Some o =>
      forallb (fun k => match field k o with Some _ => true | None => false end) ks
  | None => false
  end.

(** A result tagged with a ["status"] string. *)
Definition has_status (v : json) : bool :=
  match field "status" v with
  | Some (JStr _) => true
  | _ => false
  end.

(** [v <= n] for an integer literal [n] and a number [v] *)
Definition py_le (v : json) (n : Z) : bool :=
  match v with
  | JFloat f => f_leb f (f_of_Z n)
  | JInt z => z <=? n
  | _ => false
  end.




Definition succeeds {A} (c : py A) : bool :=
  match c with
  | inr _ => true
  | inl _ => false
  end.

(** A holder or transaction record whose amount [float] accepts. *)
Definition has_amount (h : json) : bool := succeeds (amount_of h).

(** The amounts of the records of a sample. *)
Definition amounts_of (l : list json) : list float :=
  flat_map (fun h => match amount_of h with inr a => [a] | inl _ => [] end) l.

(** Follows the spec's words: the sum of the first ten amounts over the
    sum of all amounts, times 100, and [0] when the total is not
    positive. *)
Definition spec_top10_concentration (amounts : list float) : json :=
  if f_ltb (f_of_Z 0) (f_sum amounts)
  then JFloat (f_mul (f_div (f_sum (firstn 10 amounts)) (f_sum amounts)) (f_of_Z 100))
  else JInt 0.

(** Follows the amended claim's words: that percentage printed with
    two decimals and a percent sign, and ["0.00%"] when the total is
    not positive. *)
Definition spec_top10_text (amounts : list float) : string :=
  if f_ltb (f_of_Z 0) (f_sum amounts)
  then f_fmt2 (f_mul (f_div (f_sum (firstn 10 amounts)) (f_sum amounts)) (f_of_Z 100))
       +:+ "%"
  else "0.00%".

(** Follows the spec's words: the amount a holder or transaction
    record states.  It is a number that a float can hold, a numeral in
    a string, or a truth value, which counts for 1 or 0; a record that
    names no amount counts for 0. *)
Definition stated_amount (h : json) : option float :=
  match h with
  | JObj kv =>
      match assoc "amount" kv with
      | Some (JFloat a) => Some a
      | Some (JInt z) => if f_fits z then Some (f_of_Z z) else None
      | Some (JStr s) => f_parse s
      | Some (JBool b) => Some (f_of_Z (if b then 1 else 0))
      | Some _ => None
      | None => if f_fits 0 then Some (f_of_Z 0) else None
      end
  | _ => None
  end.

(** Follows the claim's words: [p > n] for the computed percentage
    [p], a float or the integer the tool puts for an empty total. *)
Definition above (p : json) (n : Z) : bool :=
  match p with
  | JFloat x => f_ltb (f_of_Z n) x
  | JInt z => n <? z
  | _ => false
  end.

(** What the loop of the transaction tool counts: a record whose
    converted amount exceeds 1,000,000. *)
Definition is_large (tx : json) : bool :=
  match amount_of tx with
  | inr a => f_ltb (f_of_Z 1000000) a
  | inl _ => false
  end.

(** Follows the claim's words: an amount greater than 1,000,000, a
    transaction of type SPAM or SCAM, and the risk level of the
    analysed transactions with their stated amounts. *)
Definition over_threshold (a : float) : bool := f_ltb (f_of_Z 1000000) a.

Definition is_suspicious (tx : json) : bool :=
  match field "type" tx with
  | Some t => eq_str t "SPAM" || eq_str t "SCAM"
  | None => false
  end.

Definition spec_risk_level (amounts : list float) (analysed : list json) : string :=
  if (3 <? Z.of_nat (length (List.filter over_threshold amounts)))
     || existsb is_suspicious analysed
  then "HIGH" else "LOW".







(** ** Outcomes of computations

    [pposts c Q]: if [c] returns, its value satisfies [Q].
    [posts c Q]: the same for a tool body, whatever the network does.
    [always c Q]: [c] returns, on every network, a value that satisfies
    [Q]; in particular it does not raise. *)

Definition pposts {A} (c : py A) (Q : A -> Prop) : Prop :=
  match c with
  | inr a => Q a
  | inl _ => True
  end.

Definition posts {A} (c : io A) (Q : A -> Prop) : Prop :=
  forall net log, pposts (snd (c net log)) Q.

Definition always {A} (c : io A) (Q : A -> Prop) : Prop :=
  forall net log, exists log' a, c net log = (log', inr a) /\ Q a.

(** ** The registry

    A tool is invoked with keyword arguments; the record holds the ones
    any of the eleven tools reads, with the defaults of the signatures. *)

Record tool_input := ToolInput {
  token_address : string;
  chain : string;
  project_name : option string;
  limit : Z
}.

Definition default_input (addr : string) : tool_input :=
  ToolInput addr "solana" None 10.

Record tool := Tool { tool_name : string; invoke : tool_input -> io json }.

Definition get_tools : list tool :=
  [ Tool "analyze_token_security"
      (fun i => analyze_token_security (token_address i) (chain i));
    Tool "get_token_metadata_and_security"
      (fun i => get_token_metadata_and_security (token_address i));
    Tool "analyze_token_with_rugcheck"
      (fun i => analyze_token_with_rugcheck (token_address i));
    Tool "check_security_incidents"
      (fun i => check_security_incidents (token_address i) (project_name i));
    Tool "check_certik_audit_status"
      (fun i => check_certik_audit_status (token_address i));
    Tool "get_token_holder_distribution_helius"
      (fun i => get_token_holder_distribution_helius (token_address i));
    Tool "get_token_transaction_history"
      (fun i => get_token_transaction_history (token_address i) (limit i));
    Tool "get_token_holders"
      (fun i => get_token_holders (token_address i));
    Tool "get_trading_metrics"
      (fun i => get_trading_metrics (token_address i));
    Tool "get_token_details"
      (fun i => get_token_details (token_address i));
    Tool "get_trending_tokens"
      (fun _ => get_trending_tokens) ].

End Tools.

(** ** Configuration: [src/config.py]

    The process environment and the parsed [.env] file are finite maps
    from names to values. *)

(** [load_dotenv()]: names the process already defines are kept. *)
Definition load_dotenv (environ dotenv : gmap string string) : gmap string string :=
  environ ∪ dotenv.

(** [os.getenv(name)] *)
Definition getenv (environ : gmap string string) (name : string) : option string :=
  environ !! name.

(** [not v] for the result of [os.getenv] *)
Definition unset (v : option string) : bool :=
  match v with
  | None => true
  | Some s => String.eqb s ""
  end.

Record config := Config {
  GOOGLE_API_KEY : string;
  MODEL_CONFIG_model : string;
  MODEL_CONFIG_temperature : Q
}.

Definition missing_key_message : string :=
  "GOOGLE_API_KEY environment variable is not set. "
  +:+ "Please create a .env file with your Google AI API key. "
  +:+ "Get your key from: https://ai.google.dev/gemini-api/docs/api-key".

(** Executing the module [config]: it raises or it defines its names. *)
Definition load_config (environ dotenv : gmap string string) : exn + config :=
  let env := load_dotenv environ dotenv in
  match getenv env "GOOGLE_API_KEY" with
  | Some key =>
      if unset (Some key) then inl (Exn ValueError missing_key_message)
      else inr (Config key "gemini-2.0-flash" (2 # 10))
  | None => inl (Exn ValueError missing_key_message)
  end.

(** ** The executor: [src/agent_executor.py] *)

Record request_context := RequestContext {
  user_input : string;
  message : option string;
  current_task : option string
}.

Inductive task_state := working | input_required | completed.

Inductive event :=
| NewTask (context_id : string)
| TaskArtifactUpdateEvent (content : string)
| TaskStatusUpdateEvent (state : task_state) (final : bool).

(** [cancel] receives the context and the queue and raises at once;
    the queue it leaves behind is the one it was given. *)
Definition cancel (context : request_context) (event_queue : list event)
  : list event * (exn + unit) :=
  (event_queue, inl (Exn PlainException "cancel not supported")).

(** ** What the tools answer to an HTTP error status

    Read off the [else] branch of each tool's test on
    [response.status_code]: the ["status"] and the ["message"] of the
    result, by tool name. *)

Definition status_on_http_error (name : string) : string :=
  if String.eqb name "analyze_token_with_rugcheck" then "not_found"
  else if String.eqb name "check_security_incidents" then "unknown"
  else if String.eqb name "check_certik_audit_status" then "not_audited"
  else "error".

Definition message_on_http_error (name : string) (code : Z) : string :=
  if String.eqb name "analyze_token_security" then "GoPlus API error: " +:+ str_Z code
  else if String.eqb name "get_token_metadata_and_security"
  then "Token metadata APIs unavailable"
  else if String.eqb name "analyze_token_with_rugcheck" then "Token not found on Rugcheck"
  else if String.eqb name "check_security_incidents"
  then "Unable to check incident database at this time"
  else if String.eqb name "check_certik_audit_status"
  then "Token not found in CertiK audit database"
  else if String.eqb name "get_token_holder_distribution_helius"
          || String.eqb name "get_token_transaction_history"
  then "Helius API error: " +:+ str_Z code
  else "API error: " +:+ str_Z code.

Definition slowmist_request : request := Request (SLOWMIST_API +:+ "/") [].

(** The key [config] ends up with, if any. *)
Definition loaded_key (r : exn + config) : option string :=
  match r with
  | inr c => Some (GOOGLE_API_KEY c)
  | inl _ => None
  end.

(** ** The agent: [src/agent.py] *)

Definition newline : string := String (ascii_of_nat 10) EmptyString.

(** [s.strip()], on the ASCII whitespace *)
Definition is_space (c : ascii) : bool :=
  let n := nat_of_ascii c in
  ((9 <=? n) && (n <=? 13) || (28 <=? n) && (n <=? 32))%nat.

Fixpoint lstrip (s : string) : string :=
  match s with
  | EmptyString => EmptyString
  | String c s' => if is_space c then lstrip s' else s
  end.

Fixpoint rstrip (s : string) : string :=
  match s with
  | EmptyString => EmptyString
  | String c s' =>
      let r := rstrip s' in
      if is_space c && String.eqb r "" then EmptyString else String c r
  end.

Definition strip (s : string) : string := rstrip (lstrip s).

Section AgentValues.

Context `{PyFloat}.

(** A content block of a message: text, or a dict. *)
Inductive block :=
| BlockStr (s : string)
| BlockDict (kv : list (string * json)).

(** [msg.content]: a string or a list of blocks. *)
Inductive content :=
| ContentStr (s : string)
| ContentList (blocks : list block).

(** An entry of [result["messages"]]: a message with its content, or
    an object that has no [content] attribute. *)
Inductive chat_message :=
| Message (c : content)
| NoContent.

(** The dict an agent run returns: [result.get("messages")] and
    [str(result)]. *)
Record agent_result := AgentResult {
  messages : option (list chat_message);
  result_str : string
}.

Definition content_truthy (c : content) : bool :=
  match c with
  | ContentStr s => negb (String.eqb s "")
  | ContentList blocks => match blocks with [] => false | _ => true end
  end.

(** The list [text_parts] after the loop over the blocks. *)
Definition text_parts (blocks : list block) : list json :=
  flat_map
    (fun b =>
       match b with
       | BlockDict kv =>
           match assoc "text" kv with
           | Some v => [v]
           | None => []
           end
       | BlockStr s => [JStr s]
       end)
    blocks.

(** The strings of [parts], from index [i] on; [join] accepts strings
    only. *)
Fixpoint str_items (i : nat) (parts : list json) : py (list string) :=
  match parts with
  | [] => ret []
  | JStr s :: parts' => bind (str_items (S i) parts') (fun ss => ret (s :: ss))
  | v :: _ =>
      raise (Exn TypeError
               ("sequence item " +:+ str_Z (Z.of_nat i) +:+ ": expected str instance, "
                +:+ type_name v +:+ " found"))
  end.

(** [sep.join(parts)] *)
Definition py_join (sep : string) (parts : list json) : py string :=
  bind (str_items 0 parts) (fun ss => ret (String.concat sep ss)).

(** The loop [for msg in reversed(messages)], on the reversed list:
    what the first message with a truthy content makes the function
    return; [None] when the loop ends without returning. *)
Fixpoint first_answer (reversed : list chat_message) : option (py string) :=
  match reversed with
  | [] => None
  | Message c :: rest =>
      if content_truthy c then
        Some (match c with
              | ContentList blocks => py_join newline (text_parts blocks)
              | ContentStr s => ret s
              end)
      else first_answer rest
  | NoContent :: rest => first_answer rest
  end.

Definition extract_response (result : agent_result) : py string :=
  match messages result with
  | Some msgs =>
      match first_answer (rev msgs) with
      | Some answer => answer
      | None => ret (result_str result)
      end
  | None => ret (result_str result)
  end.

End AgentValues.

(** *** The class [DeFiRiskAgent]

    The language model and the agent runtime are outside the
    repository: [build_agent] stands for the two constructor calls of
    [initialize] (the chat model, then the agent), [ainvoke] for a run
    of the compiled agent on a list of (role, content) messages, and
    [cfg] for the names [initialize] imports from [config]. *)

Class Runtime `{PyFloat} := {
  handle : Type;
  build_agent : config -> list tool -> py handle;
  ainvoke : handle -> list (string * string) -> py agent_result;
  cfg : config
}.

Section Agent.

Context `{Runtime}.

(** The fields of the object, together with what the process has
    printed and the runs it has asked of the agent. *)
Record world := World {
  agent : option handle;
  tools : option (list tool);
  _initialized : bool;
  stdout : list string;
  asked : list (list (string * string))
}.

Definition act (A : Type) : Type := world -> world * py A.

Definition act_ret {A} (a : A) : act A := fun w => (w, inr a).

Definition act_bind {A B} (c : act A) (k : A -> act B) : act B :=
  fun w =>
    match c w with
    | (w', inr a) => k a w'
    | (w', inl e) => (w', inl e)
    end.

Definition act_lift {A} (c : py A) : act A := fun w => (w, c).

(** [print(line)] *)
Definition print (line : string) : act unit :=
  fun w => (World (agent w) (tools w) (_initialized w) (stdout w ++ [line]) (asked w),
            inr tt).

Definition set_tools (ts : option (list tool)) : act unit :=
  fun w => (World (agent w) ts (_initialized w) (stdout w) (asked w), inr tt).

Definition set_agent (a : option handle) : act unit :=
  fun w => (World a (tools w) (_initialized w) (stdout w) (asked w), inr tt).

Definition set_initialized (b : bool) : act unit :=
  fun w => (World (agent w) (tools w) b (stdout w) (asked w), inr tt).

(** [DeFiRiskAgent()] in a process that has printed [out]. *)
Definition new_agent (out : list string) : world := World None None false out [].

Notation "'let!' x ':=' c 'in' k" := (act_bind c (fun x => k))
  (at level 10, x name, c at level 100, k at level 200).
Notation "c >>> k" := (act_bind c (fun _ => k))
  (at level 62, right associativity).

Definition tool_names : string :=
  String.concat ", "
    ["GoPlus Security"; "Metadata"; "Rugcheck"; "SlowMist Incidents";
     "CertiK Audits"; "Helius Holders"; "Tx History"; "DexScreener Holders";
     "Trading Metrics"; "Token Details"; "Trending Tokens"].

Definition initialize : act unit :=
  fun w =>
    if _initialized w then (w, inr tt)
    else
      (print "🔄 Initializing DeFi Risk Agent..." >>>
       set_tools (Some get_tools) >>>
       print ("✅ Loaded " +:+ str_Z (Z.of_nat (length get_tools))
              +:+ " DeFi analysis tools") >>>
       print ("📦 Tools: " +:+ tool_names) >>>
       let! h := act_lift (build_agent cfg get_tools) in
       set_agent (Some h) >>>
       set_initialized true >>>
       print "✅ DeFi Risk Agent initialized and ready!") w.

(** [await self.agent.ainvoke({"messages": msgs})] *)
Definition invoke_agent (msgs : list (string * string)) : act agent_result :=
  fun w =>
    match agent w with
    | Some h =>
        (World (agent w) (tools w) (_initialized w) (stdout w) (asked w ++ [msgs]),
         ainvoke h msgs)
    | None =>
        (w, raise (Exn AttributeError "'NoneType' object has no attribute 'ainvoke'"))
    end.

Definition ensure_initialized : act unit :=
  fun w => if _initialized w then (w, inr tt) else initialize w.

Definition analysis_prompt (token_address : string) : string :=
  "Analyze this token for rug-pull risk: " +:+ token_address +:+ newline +:+ newline
  +:+ "Use all available tools to gather:" +:+ newline
  +:+ "1. Security metrics (mint authority, freeze authority)" +:+ newline
  +:+ "2. Holder distribution and concentration" +:+ newline
  +:+ "3. Liquidity and pool information" +:+ newline
  +:+ "4. Trading statistics and patterns" +:+ newline
  +:+ "5. Token details and metadata" +:+ newline +:+ newline
  +:+ "Then provide a comprehensive risk assessment with score and recommendation.".

Definition analyze (token_address : string) : act agent_result :=
  ensure_initialized >>>
  print (newline +:+ "🔍 Starting analysis for: " +:+ token_address) >>>
  invoke_agent [("user", analysis_prompt token_address)].

Definition chat (message : string) : act agent_result :=
  ensure_initialized >>>
  invoke_agent [("user", message)].

Definition agent_get_trending_tokens : act agent_result :=
  chat ("Show me the currently trending tokens on Solana. "
        +:+ "Use the trending_tokens tool to get tokens sorted by volume and price change.").

Definition quick_lookup (token_address : string) : act agent_result :=
  chat ("Give me a quick overview of this token: " +:+ token_address +:+ ". "
        +:+ "Use the token_details tool to get basic info like name, price, and market cap.").

Definition check_holders (token_address : string) : act agent_result :=
  chat ("Analyze the holder distribution for token: " +:+ token_address +:+ ". "
        +:+ "Use the holder analysis tool to show any concentration risks.").

Definition close : act unit :=
  set_agent None >>>
  set_tools None >>>
  set_initialized false >>>
  print "👋 Agent closed".

(** ** The interactive loop: [main.py] *)

(** What a call of [input] delivers: a line.  When the list is used
    up, [input] raises [EOFError].  Signals are outside the model: a
    [KeyboardInterrupt] or a task cancellation is no subclass of
    [Exception] and is raised by the runtime, not by this code. *)
Inductive console :=
| Line (s : string).

Definition prompt : string := newline +:+ "🤖 > ".

(** The [while True] loop, until the [break] at the end of the input. *)
Fixpoint repl (inputs : list console) : act unit :=
  match inputs with
  | [] => print prompt >>> act_ret tt
  | Line s :: rest =>
      print prompt >>>
      let user_input := strip s in
      if String.eqb user_input "" then repl rest
      else
        print (newline +:+ "💭 Processing your question...") >>>
        let! result := chat user_input in
        let! answer := act_lift (extract_response result) in
        print answer >>>
        repl rest
  end.

End Agent.

(** [HELP_TEXT] of [main.py] *)
Definition HELP_TEXT : string := "
Available Commands:
───────────────────────────────────────────────────────────────
  analyze <token>    Full risk analysis for a token address
  quick <token>      Quick lookup of token info
  holders <token>    Check holder distribution
  trending           Show trending tokens on Solana
  help               Show this help message
  quit / exit        Exit the agent
───────────────────────────────────────────────────────────────

Example Token Addresses:
  SOL:   So11111111111111111111111111111111111111112
  USDC:  EPjFWdd5AufqSSqeM2qN1xzybapC8G4wEGGkZwyTDt1v
  BONK:  DezXAZ8z7PnrnRJjz3wXBoRgixCa6xjnB7YaB1pPB263

Or just ask any question about DeFi tokens!
".

Section Interactive.

Context `{Runtime}.

(** The handler [except Exception] of [interactive_mode] and its
    [finally]: what becomes of the outcome of the [try] block.  The
    handler [except KeyboardInterrupt] is not reached by an exception
    of the model. *)
Definition finish (r : world * py unit) : world * py unit :=
  match r with
  | (w, inr _) => (fst (close w), inr tt)
  | (w, inl e) =>
      (fst (close (fst (print (newline +:+ "❌ Error: " +:+ str_exn e) w))), inl e)
  end.

(** [interactive_mode], in a process that has printed [out] and whose
    keyboard delivers [inputs].  The result says whether an exception
    leaves the function. *)
Definition interactive_mode (inputs : list console) (out : list string)
  : world * py unit :=
  finish
    (act_bind initialize (fun _ =>
     act_bind (print HELP_TEXT) (fun _ => repl inputs))
       (new_agent out)).

End Interactive.

(** ** The executor's [execute]: [src/agent_executor.py] *)

Module Executor.

Record task := Task { task_id : string; task_context_id : string }.

Record context := ExecContext {
  get_user_input : string;
  context_message : option string;
  context_task : option task
}.

(** What the loop of [execute] reads of a streamed event. *)
Record stream_event := StreamEvent {
  is_task_complete : bool;
  require_user_input : bool;
  content : string
}.

Inductive queue_event :=
| EnqueueTask (t : task)
| ArtifactUpdate (append : bool) (context_id task_id : string) (last_chunk : bool)
    (name description text : string)
| StatusUpdate (state : task_state) (message : option string) (final : bool)
    (context_id task_id : string).

(** A [stream] method: given the query and the context id it yields
    events and then finishes or raises.  [None] is a class that has no
    such method. *)
Definition stream_method : Type :=
  option (string -> string -> list stream_event * option exn).

(** The class [DeFiRiskAgent] defines [initialize], [analyze], [chat],
    [get_trending_tokens], [quick_lookup], [check_holders], [close],
    [__aenter__] and [__aexit__]; it defines no [stream]. *)
Definition DeFiRiskAgent_stream : stream_method := None.

(** The body of the loop: what one streamed event puts on the queue. *)
Definition publish (t : task) (e : stream_event) : list queue_event :=
  if is_task_complete e then
    [ArtifactUpdate false (task_context_id t) (task_id t) true
       "current_result" "Result of request to agent." (content e);
     StatusUpdate completed None true (task_context_id t) (task_id t)]
  else if require_user_input e then
    [StatusUpdate input_required (Some (content e)) true (task_context_id t) (task_id t)]
  else
    [StatusUpdate working (Some (content e)) false (task_context_id t) (task_id t)].

(** [execute] for an executor whose agent has the given [stream];
    [new_task] is the library call that makes a task of a message. *)
Definition execute_with (stream : stream_method) (new_task : string -> task)
    (ctx : context) (queue : list queue_event) : list queue_event * py unit :=
  match context_message ctx with
  | None => (queue, raise (Exn PlainException "No message provided"))
  | Some m =>
      let t := match context_task ctx with Some t => t | None => new_task m end in
      let queue1 :=
        match context_task ctx with
        | Some _ => queue
        | None => queue ++ [EnqueueTask t]
        end in
      match stream with
      | None =>
          (queue1,
           raise (Exn AttributeError "'DeFiRiskAgent' object has no attribute 'stream'"))
      | Some s =>
          let '(events, failure) := s (get_user_input ctx) (task_context_id t) in
          (queue1 ++ flat_map (publish t) events,
           match failure with
           | Some e => raise e
           | None => ret tt
           end)
      end
  end.

(** [DeFiRiskAgentExecutor.execute]: the agent is a [DeFiRiskAgent]. *)
Definition execute := execute_with DeFiRiskAgent_stream.

End Executor.

Section AgentStatements.

Context `{Runtime}.

(** A message the loop of [extract_response] passes over. *)
Definition passed_over (m : chat_message) : bool :=
  match m with
  | Message c => negb (content_truthy c)
  | NoContent => true
  end.

(** What [extract_response] returns for a content it stops at. *)
Definition answer_of (c : content) : py string :=
  match c with
  | ContentList blocks => py_join newline (text_parts blocks)
  | ContentStr s => ret s
  end.

(** The text a block contributes, when it is text. *)
Definition block_text (b : block) : list string :=
  match b with
  | BlockStr s => [s]
  | BlockDict kv =>
      match assoc "text" kv with
      | Some (JStr s) => [s]
      | _ => []
      end
  end.

(** A block [join] accepts: text, a dict with a text string, or a dict
    without text. *)
Definition text_ok (b : block) : bool :=
  match b with
  | BlockStr _ => true
  | BlockDict kv =>
      match assoc "text" kv with
      | Some (JStr _) | None => true
      | Some _ => false
      end
  end.

(** An object whose [_initialized] flag tells the truth. *)
Definition ready (w : world) : Prop :=
  _initialized w = true -> is_Some (agent w) /\ tools w = Some get_tools.

(** The lines [initialize] prints before it builds the agent. *)
Definition loading_lines : list string :=
  ["🔄 Initializing DeFi Risk Agent...";
   "✅ Loaded " +:+ str_Z (Z.of_nat (length get_tools)) +:+ " DeFi analysis tools";
   "📦 Tools: " +:+ tool_names].

(** The lines the loop forwards: the stripped inputs that are not
    blank. *)
Definition forwarded (lines : list string) : list string :=
  List.filter (fun u => negb (String.eqb u "")) (map strip lines).

End AgentStatements.

(** ** Schema patching: [src/utils.py] *)

Section Patch.

Context `{PyFloat}.

(** A type annotation: [Optional[List[str]]], or another one. *)
Inductive annotation :=
| OptionalListStr
| OtherAnnotation (repr : string).

(** A [FieldInfo]: its annotation, and the rest of it. *)
Record model_field := ModelField { field_annotation : annotation; field_rest : string }.

(** [tool.args_schema]: nothing, a Pydantic V2 model class (an object
    with [model_fields]), a dict, or a truthy object that is neither. *)
Inductive args_schema :=
| SchemaNone
| SchemaModel (name : string) (model_fields : list (string * model_field))
| SchemaDict (kv : list (string * json))
| SchemaOther.

Record structured_tool := StructuredTool {
  st_name : string;
  st_args_schema : args_schema
}.

(** [create_model(name, **new_fields)] is Pydantic's: it returns a
    model class or raises. *)
Variable create_model :
  string -> list (string * (annotation * model_field)) -> py args_schema.

(** [name in ["order_desc", "order_asc"]] *)
Definition is_order_field (name : string) : bool :=
  String.eqb name "order_desc" || String.eqb name "order_asc".

(** The dict [new_fields] after the loop over [model_fields]. *)
Definition new_fields (fields : list (string * model_field))
  : list (string * (annotation * model_field)) :=
  map (fun nf =>
         if is_order_field (fst nf) then (fst nf, (OptionalListStr, snd nf))
         else (fst nf, (field_annotation (snd nf), snd nf)))
      fields.

(** [d[k] = v] on a dict that has the key: the item keeps its place. *)
Fixpoint assoc_set (k : string) (v : json) (kv : list (string * json))
  : list (string * json) :=
  match kv with
  | [] => []
  | (k', v') :: kv' =>
      if String.eqb k k' then (k', v) :: kv' else (k', v') :: assoc_set k v kv'
  end.

(** What the innermost two tests do to [field_def]. *)
Definition patch_field_def (field_def : json) : json :=
  match field_def with
  | JObj fd =>
      if eq_str (get_or "type" fd JNull) "array" then
        match assoc "items" fd with
        | None => JObj (fd ++ [("items", JObj [("type", JStr "string")])])
        | Some _ => field_def
        end
      else field_def
  | _ => field_def
  end.

(** One round of [for name in ["order_desc", "order_asc"]] on [props]:
    [name in props], then [props[name]]. *)
Definition patch_property (name : string) (props : json) : py json :=
  match props with
  | JObj pkv =>
      match assoc name pkv with
      | Some field_def => ret (JObj (assoc_set name (patch_field_def field_def) pkv))
      | None => ret props
      end
  | JList l =>
      if existsb (fun v => eq_str v name) l
      then raise (Exn TypeError "list indices must be integers or slices, not str")
      else ret props
  | JStr s =>
      if contains name s
      then raise (Exn TypeError "string indices must be integers, not 'str'")
      else ret props
  | _ =>
      raise (Exn TypeError
               ("argument of type '" +:+ type_name props +:+ "' is not iterable"))
  end.

(** The dict branch; [props] is the object stored under
    ["properties"], or a new empty dict that is then dropped. *)
Definition patch_dict_schema (kv : list (string * json)) : py (list (string * json)) :=
  bind (patch_property "order_desc" (get_or "properties" kv (JObj []))) (fun props1 =>
  bind (patch_property "order_asc" props1) (fun props2 =>
  ret (assoc_set "properties" props2 kv))).

(** The body of the loop over the tools: what is printed, and the tool
    as the loop leaves it. *)
Definition patch_tool (t : structured_tool) : list string * py structured_tool :=
  match st_args_schema t with
  | SchemaNone => ([], ret t)
  | SchemaDict [] => ([], ret t)
  | SchemaModel name fields =>
      if existsb (fun nf => is_order_field (fst nf)) fields then
        match create_model name (new_fields fields) with
        | inr schema => ([], ret (StructuredTool (st_name t) schema))
        | inl e =>
            (["⚠️ Could not patch Pydantic model for " +:+ st_name t +:+ ": "
              +:+ str_exn e],
             ret t)
        end
      else ([], ret t)
  | SchemaDict kv =>
      ([], bind (patch_dict_schema kv)
             (fun kv' => ret (StructuredTool (st_name t) (SchemaDict kv'))))
  | SchemaOther => ([], ret t)
  end.

(** The tool objects are patched in place, so the list returned is
    also what the caller's list holds afterwards.  The tools of the
    list are taken to be distinct objects. *)
Fixpoint _patch_tools_for_gemini (tools : list structured_tool)
  : list string * py (list structured_tool) :=
  match tools with
  | [] => ([], ret [])
  | t :: tools' =>
      match patch_tool t with
      | (out, inr t') =>
          let '(out', r) := _patch_tools_for_gemini tools' in
          (out ++ out', bind r (fun ts => ret (t' :: ts)))
      | (out, inl e) => (out, inl e)
      end
  end.

End Patch.

Section PatchStatements.

Context `{PyFloat}.

(** A tool the model branch does not rebuild. *)
Definition keeps_model (t : structured_tool) : bool :=
  match st_args_schema t with
  | SchemaModel _ fields => negb (existsb (fun nf => is_order_field (fst nf)) fields)
  | _ => true
  end.

(** The property [name] of [props] is an array without [items]. *)
Definition property_lacks_items (props : json) (name : string) : bool :=
  match props with
  | JObj pkv =>
      match assoc name pkv with
      | Some (JObj fd) =>
          eq_str (get_or "type" fd JNull) "array"
          && match assoc "items" fd with None => true | Some _ => false end
      | _ => false
      end
  | _ => false
  end.

(** The same, for the properties of a dict schema. *)
Definition lacks_items (kv : list (string * json)) (name : string) : bool :=
  property_lacks_items (get_or "properties" kv (JObj [])) name.

(** A tool whose dict schema, if it has one, has no order property
    that is an array without [items]. *)
Definition has_items (t : structured_tool) : bool :=
  match st_args_schema t with
  | SchemaDict kv => negb (lacks_items kv "order_desc") && negb (lacks_items kv "order_asc")
  | _ => true
  end.

End PatchStatements.

(** ** Sample payloads, with exact arithmetic *)

Module Sample.

Import ExactFloat.

Definition SOL : string := "So11111111111111111111111111111111111111112".

(** Answers every request with status 200 and the given JSON body. *)
Definition answers (body : json) : network :=
  fun _ => inr (Response 200 "" (Some body)).

(** Every request fails to connect. *)
Definition net_down : network :=
  fun _ => inl (Exn HTTPXError "All connection attempts failed").

(** Every request is answered with status 500. *)
Definition net_500 : network :=
  fun _ => inr (Response 500 "Internal Server Error" None).

Definition holder (owner : string) (amount : Z) : json :=
  JObj [("owner", JStr owner); ("amount", JInt amount)].

(** Twelve holders whose amounts add up to 100. *)
Definition twelve_holders : list json :=
  [holder "w1" 50; holder "w2" 30; holder "w3" 5; holder "w4" 5;
   holder "w5" 2; holder "w6" 2; holder "w7" 1; holder "w8" 1;
   holder "w9" 1; holder "w10" 1; holder "w11" 1; holder "w12" 1].

Definition holders_body : list (string * json) := [("holders", JList twelve_holders)].


(** GoPlus knows the token but says nothing of its mint authority. *)
Definition token_data_without_mint : list (string * json) :=
  [("liquidity_type", JStr "burned")].

Definition goplus_result : list (string * json) :=
  [(SOL, JObj token_data_without_mint)].

Definition goplus_body : list (string * json) := [("result", JObj goplus_result)].


(** A pair as DexScreener lists it. *)
Definition listed_pair : json :=
  JObj [("baseToken", JObj [("symbol", JStr "SOL"); ("address", JStr SOL)]);
        ("liquidity", JObj [("usd", JInt 5000)]);
        ("volume", JObj [("h24", JInt 1200)]);
        ("fdv", JInt 100000);
        ("marketCap", JInt 90000)].

Definition listed_body : json := JObj [("pairs", JList [listed_pair])].

(** A pair whose upstream figures are negative. *)
Definition negative_pair : json :=
  JObj [("baseToken", JObj [("symbol", JStr "NEG")]);
        ("liquidity", JObj [("usd", JInt (-5))]);
        ("volume", JObj [("h24", JInt (-1))])].


Definition transfer (type : string) (amount : Z) : json :=
  JObj [("type", JStr type); ("amount", JInt amount)].

(** Six transactions: four large ones among the first five; the sixth
    is not a record at all. *)
Definition six_transactions : list json :=
  [transfer "TRANSFER" 2000000; transfer "TRANSFER" 3000000;
   transfer "SWAP" 10; transfer "TRANSFER" 5000000;
   transfer "TRANSFER" 1000001; JNull].

Definition transactions_body : list (string * json) :=
  [("transactions", JList six_transactions)].

Definition trending_tool : tool :=
  Tool "get_trending_tokens" (fun _ => get_trending_tokens).

(** Two holders with nothing in their accounts. *)
Definition empty_accounts_body : list (string * json) :=
  [("holders", JList [holder "w1" 0; holder "w2" 0])].

(** Solscan answers 503; Jupiter knows the token. *)
Definition solscan_unavailable : network :=
  fun req =>
    if String.eqb (url req) (url (solscan_request SOL))
    then inr (Response 503 "Service Unavailable" None)
    else inr (Response 200 ""
                (Some (JObj [("name", JStr "Wrapped SOL"); ("symbol", JStr "SOL");
                             ("decimals", JInt 9)]))).

End Sample.

(** ** Further sample payloads, a sample runtime and sample tools *)

Module Fixture.

Import ExactFloat.

Definition details_tool : tool :=
  Tool "get_token_details" (fun i => get_token_details (token_address i)).

Definition security_tool : tool :=
  Tool "analyze_token_security"
    (fun i => analyze_token_security (token_address i) (chain i)).

Definition rugcheck_tool : tool :=
  Tool "analyze_token_with_rugcheck"
    (fun i => analyze_token_with_rugcheck (token_address i)).

(** The SlowMist page, naming one project. *)
Definition incident_page : network :=
  fun _ => inr (Response 200 "2022-10-11 Mango Markets exploit, 116M USD lost" None).

(** The amounts the twelve sample holders state. *)
Definition twelve_amounts : list float :=
  map f_of_Z [50; 30; 5; 5; 2; 2; 1; 1; 1; 1; 1; 1].

(** The amounts the first five sample transactions state. *)
Definition five_amounts : list float :=
  map f_of_Z [2000000; 3000000; 10; 5000000; 1000001].


(** A pair whose price has an apostrophe in it. *)
Definition misquoted_body : list (string * json) :=
  [("pairs", JList [JObj [("baseToken", JObj [("symbol", JStr "SOL")]);
                          ("priceUsd", JStr "it's")]])].

(** DexScreener answers with no pairs. *)
Definition no_pairs_body : list (string * json) :=
  [("schemaVersion", JStr "1.0.0"); ("pairs", JNull)].

(** The second holder's amount is a text [float] rejects. *)
Definition malformed_holders : list json :=
  [Sample.holder "w1" 50; JObj [("owner", JStr "w2"); ("amount", JStr "n/a")]].

Definition malformed_body : list (string * json) :=
  [("holders", JList malformed_holders)].

(** The sample transactions with another sixth record. *)
Definition other_six_transactions : list json :=
  firstn 5 Sample.six_transactions ++ [Sample.transfer "TRANSFER" 9000000].

Definition other_transactions_body : list (string * json) :=
  [("transactions", JList other_six_transactions)].

(** Eleven pairs; the eleventh is not a record. *)
Definition eleven_pairs : list json := repeat Sample.listed_pair 10 ++ [JNull].

(** Eleven pairs with another eleventh. *)
Definition other_eleven_pairs : list json :=
  repeat Sample.listed_pair 10 ++ [Sample.negative_pair].

(** The second of two pairs is not a record. *)
Definition broken_pairs : list json := [Sample.listed_pair; JNull].



(** A process environment with an empty key, and a [.env] file with
    a key. *)
Definition empty_key_environ : gmap string string := {[ "GOOGLE_API_KEY" := "" ]}.

Definition dotenv_with_key : gmap string string :=
  {[ "GOOGLE_API_KEY" := "AIza-sample" ]}.

Definition sample_config : config := Config "AIza-sample" "gemini-2.0-flash" (2 # 10).

(** A runtime whose agent answers every run with one text. *)
Definition answering : Runtime := {|
  handle := unit;
  build_agent := fun _ _ => inr tt;
  ainvoke := fun _ _ =>
    inr (AgentResult (Some [Message (ContentStr "Risk score: 42/100")]) "{}");
  cfg := sample_config
|}.

(** A runtime whose agent is built and then fails at every run. *)
Definition model_unavailable : exn := Exn PlainException "503 model unavailable".

Definition failing : Runtime := {|
  handle := unit;
  build_agent := fun _ _ => inr tt;
  ainvoke := fun _ _ => inl model_unavailable;
  cfg := sample_config
|}.

Definition question : chat_message := Message (ContentStr "analyze SOL").

(** A result whose answer is followed by an empty message and by an
    object without content. *)
Definition trailing_empty : list chat_message :=
  [Message (ContentStr ""); NoContent].

Definition mixed_blocks : list block :=
  [BlockStr "Top 10 holders own 98%.";
   BlockDict [("type", JStr "tool_use"); ("name", JStr "get_token_holders")];
   BlockDict [("type", JStr "text"); ("text", JStr "Risk: CRITICAL")]].

(** A [stream] that yields a working event, a completed one and one
    more working event. *)
Definition three_events : list Executor.stream_event :=
  [Executor.StreamEvent false false "Looking up the token";
   Executor.StreamEvent true false "Risk score: 42/100";
   Executor.StreamEvent false false "Closing"].

Definition streaming : string -> string -> list Executor.stream_event * option exn :=
  fun _ _ => (three_events, None).

Definition sample_task : Executor.task := Executor.Task "task-1" "ctx-1".

Definition sample_context : Executor.context :=
  Executor.ExecContext "analyze SOL" (Some "analyze SOL") (Some sample_task).

(** A dict schema whose [order_desc] is an array without [items]. *)
Definition orders_schema : list (string * json) :=
  [("type", JStr "object");
   ("properties",
    JObj [("order_desc", JObj [("type", JStr "array")]);
          ("limit", JObj [("type", JStr "integer")])])].

Definition orders_schema_patched : list (string * json) :=
  [("type", JStr "object");
   ("properties",
    JObj [("order_desc",
           JObj [("type", JStr "array"); ("items", JObj [("type", JStr "string")])]);
          ("limit", JObj [("type", JStr "integer")])])].

Definition sample_tools : list structured_tool :=
  [StructuredTool "list_orders" (SchemaDict orders_schema);
   StructuredTool "ping" SchemaNone;
   StructuredTool "lookup"
     (SchemaModel "LookupArgs"
        [("address", ModelField (OtherAnnotation "str") "required")])].

Definition sample_tools_patched : list structured_tool :=
  [StructuredTool "list_orders" (SchemaDict orders_schema_patched);
   StructuredTool "ping" SchemaNone;
   StructuredTool "lookup"
     (SchemaModel "LookupArgs"
        [("address", ModelField (OtherAnnotation "str") "required")])].

(** A [create_model] that rejects every model. *)
Definition rejecting_create_model
    (name : string) (fields : list (string * (annotation * model_field)))
  : py args_schema :=
  raise (Exn TypeError ("cannot create model " +:+ name)).

End Fixture.

(** * Properties *)

Section ToolFacts.

Context `{PyFloat}.

(** ** Rules for outcomes *)

Lemma pposts_ret {A} (a : A) (Q : A -> Prop) : Q a -> pposts (ret a) Q.
Proof. intros Ha. exact Ha. Qed.

Lemma pposts_bind_any {A B} (c : py A) (k : A -> py B) (Q : B -> Prop) :
  (forall a, pposts (k a) Q) -> pposts (bind c k) Q.
Proof. intros Hk. destruct c as [e | a]; simpl; [exact I | apply Hk]. Qed.

Lemma posts_lift {A} (c : py A) (Q : A -> Prop) : pposts c Q -> posts (lift c) Q.
Proof. intros Hc net log. exact Hc. Qed.

Lemma posts_bind_any {A B} (c : io A) (k : A -> io B) (Q : B -> Prop) :
  (forall a, posts (k a) Q) -> posts (io_bind c k) Q.
Proof.
  intros Hk net log. unfold io_bind.
  destruct (c net log) as [log' [e | a]]; simpl; [exact I | apply Hk].
Qed.

Lemma always_try {A} (body : io A) (handler : exn -> io A) (Q : A -> Prop) :
  posts body Q -> (forall e, always (handler e) Q) ->
  always (try_except body handler) Q.
Proof.
  intros Hbody Hhandler net log. unfold try_except.
  specialize (Hbody net log).
  destruct (body net log) as [log' [e | a]]; simpl in Hbody.
  - apply Hhandler.
  - exists log', a. split; [reflexivity | exact Hbody].
Qed.

Lemma always_error_result (e : exn) :
  always (error_result e) (fun v => has_status v = true).
Proof. intros net log. eexists _, _. split; reflexivity. Qed.

Lemma always_error_result_note (note : string) (e : exn) :
  always (error_result_note note e) (fun v => has_status v = true).
Proof. intros net log. eexists _, _. split; reflexivity. Qed.

(** Walks through a tool body: every path ends in a [ret] of a dict
    literal whose first key is ["status"]. *)
Ltac pure_paths :=
  repeat first
    [ apply pposts_ret; reflexivity
    | apply pposts_bind_any; intros ?
    | match goal with
      | |- pposts (if ?b then _ else _) _ => destruct b
      end
    | progress cbv zeta ].

Ltac tool_paths :=
  apply always_try;
  [ repeat first
      [ apply posts_lift; pure_paths
      | apply posts_bind_any; intros ?
      | match goal with
        | |- posts (if ?b then _ else _) _ => destruct b
        end
      | progress cbv zeta ]
  | first [ apply always_error_result | apply always_error_result_note ] ].

Lemma analyze_token_security_status addr chain :
  always (analyze_token_security addr chain) (fun v => has_status v = true).
Proof. unfold analyze_token_security. tool_paths. Qed.

Lemma get_token_metadata_and_security_status addr :
  always (get_token_metadata_and_security addr) (fun v => has_status v = true).
Proof. unfold get_token_metadata_and_security. tool_paths. Qed.

Lemma analyze_token_with_rugcheck_status addr :
  always (analyze_token_with_rugcheck addr) (fun v => has_status v = true).
Proof. unfold analyze_token_with_rugcheck. tool_paths. Qed.

Lemma check_security_incidents_status addr name :
  always (check_security_incidents addr name) (fun v => has_status v = true).
Proof. unfold check_security_incidents. tool_paths. Qed.

Lemma check_certik_audit_status_status addr :
  always (check_certik_audit_status addr) (fun v => has_status v = true).
Proof. unfold check_certik_audit_status. tool_paths. Qed.

Lemma get_token_holder_distribution_helius_status addr :
  always (get_token_holder_distribution_helius addr) (fun v => has_status v = true).
Proof. unfold get_token_holder_distribution_helius. tool_paths. Qed.

Lemma get_token_transaction_history_status addr limit :
  always (get_token_transaction_history addr limit) (fun v => has_status v = true).
Proof. unfold get_token_transaction_history. tool_paths. Qed.

Lemma get_token_holders_status addr :
  always (get_token_holders addr) (fun v => has_status v = true).
Proof. unfold get_token_holders. tool_paths. Qed.

Lemma get_trading_metrics_status addr :
  always (get_trading_metrics addr) (fun v => has_status v = true).
Proof. unfold get_trading_metrics. tool_paths. Qed.

Lemma get_token_details_status addr :
  always (get_token_details addr) (fun v => has_status v = true).
Proof. unfold get_token_details. tool_paths. Qed.

Lemma get_trending_tokens_status :
  always get_trending_tokens (fun v => has_status v = true).
Proof. unfold get_trending_tokens. tool_paths. Qed.

(** C1. Every tool of the registry, on every input and whatever the
    upstream does (an answer with status 200, an error status, a body
    that does not parse or has an unexpected shape, an exception raised
    by the request), returns one dict with a ["status"] string; no
    exception reaches the caller. *)
Theorem tool_call_returns_status_dict (t : tool) (input : tool_input)
    (net : network) (log : list request) :
  In t get_tools ->
  exists log' v, invoke t input net log = (log', inr v) /\ has_status v = true.
Proof.
  intros Hin. revert net log. change (always (invoke t input) (fun v => has_status v = true)).
  unfold get_tools in Hin. simpl in Hin.
  repeat (destruct Hin as [<- | Hin]; [simpl | ]); [ .. | contradiction ].
  - apply analyze_token_security_status.
  - apply get_token_metadata_and_security_status.
  - apply analyze_token_with_rugcheck_status.
  - apply check_security_incidents_status.
  - apply check_certik_audit_status_status.
  - apply get_token_holder_distribution_helius_status.
  - apply get_token_transaction_history_status.
  - apply get_token_holders_status.
  - apply get_trading_metrics_status.
  - apply get_token_details_status.
  - apply get_trending_tokens_status.
Qed.



(** ** Reading dicts and sequences *)

Lemma get_or_Some k kv (v dflt : json) : assoc k kv = Some v -> get_or k kv dflt = v.
Proof. unfold get_or. now intros ->. Qed.

Lemma get_or_field k kv : get_or k kv JNull = default JNull (field k (JObj kv)).
Proof. unfold get_or. simpl. now destruct (assoc k kv). Qed.

Lemma has_amount_obj (h : json) : has_amount h = true -> exists kv, h = JObj kv.
Proof.
  destruct h; try discriminate. intros _. eauto.
Qed.

Lemma amount_of_has_amount h :
  has_amount h = true -> exists a, amount_of h = inr a.
Proof.
  unfold has_amount, succeeds. destruct (amount_of h) as [e | a]; [discriminate | eauto].
Qed.

Lemma mapM_amounts (l : list json) :
  forallb has_amount l = true -> mapM amount_of l = inr (amounts_of l).
Proof.
  induction l as [| h l IH]; simpl; [reflexivity | ].
  intros [Hh Hl]%andb_prop. 
  destruct (amount_of_has_amount h Hh) as [a Ha].
  unfold amounts_of in *. simpl. rewrite Ha. simpl. rewrite (IH Hl). reflexivity.
Qed.

Lemma forallb_firstn {A} (f : A -> bool) n (l : list A) :
  forallb f l = true -> forallb f (firstn n l) = true.
Proof.
  revert n. induction l as [| a l IH]; intros [| n]; simpl; try reflexivity.
  intros [Ha Hl]%andb_prop. rewrite Ha. simpl. now apply IH.
Qed.

Lemma amounts_of_firstn n (l : list json) :
  forallb has_amount l = true -> amounts_of (firstn n l) = firstn n (amounts_of l).
Proof.
  revert n. induction l as [| h l IH]; intros [| n]; simpl; try reflexivity.
  intros [Hh Hl]%andb_prop.
  destruct (amount_of_has_amount h Hh) as [a Ha].
  unfold amounts_of in *. simpl. rewrite Ha. simpl. f_equal. now apply IH.
Qed.

Lemma amounts_of_length (l : list json) :
  forallb has_amount l = true -> length (amounts_of l) = length l.
Proof.
  induction l as [| h l IH]; simpl; [reflexivity | ].
  intros [Hh Hl]%andb_prop.
  destruct (amount_of_has_amount h Hh) as [a Ha].
  unfold amounts_of in *. simpl. rewrite Ha. simpl. f_equal. now apply IH.
Qed.


Lemma py_sum_amounts (l : list json) :
  l <> [] -> forallb has_amount l = true ->
  py_sum (amounts_of l) = JFloat (f_sum (amounts_of l)).
Proof.
  intros Hne Hwf. pose proof (amounts_of_length l Hwf) as Hlen.
  destruct (amounts_of l); [ | reflexivity ].
  destruct l; [contradiction | discriminate].
Qed.

Lemma top_10_percentage_spec (a b : float) :
  top_10_percentage (JFloat a) (JFloat b) =
  inr (if f_ltb (f_of_Z 0) b then JFloat (f_mul (f_div a b) (f_of_Z 100)) else JInt 0).
Proof.
  unfold top_10_percentage, py_gt, py_share.
  destruct (f_ltb (f_of_Z 0) b) eqn:Hpos; [ | reflexivity ].
  now rewrite (f_pos_nonzero b Hpos).
Qed.

Lemma share_text_returns (h : json) (b : float) :
  has_amount h = true -> f_ltb (f_of_Z 0) b = true ->
  exists t, share_text h (JFloat b) = inr t.
Proof.
  intros Hh Hpos. destruct (amount_of_has_amount h Hh) as [a Ha].
  unfold share_text. rewrite Ha. simpl. rewrite (f_pos_nonzero b Hpos). simpl. eauto.
Qed.

Lemma top_10_entry_returns (h : json) (b : float) :
  has_amount h = true ->
  exists t, top_10_entry (JFloat b) h =
            inr (JObj [("address", default JNull (field "owner" h)); ("percentage", JStr t)]).
Proof.
  intros Hh. destruct (has_amount_obj h Hh) as [kv ->].
  unfold top_10_entry. simpl.
  destruct (f_ltb (f_of_Z 0) b) eqn:Hpos.
  - destruct (share_text_returns _ b Hh Hpos) as [t Ht]. rewrite Ht. simpl.
    exists t. now rewrite get_or_field.
  - simpl. exists "0%". now rewrite get_or_field.
Qed.

Lemma mapM_top_10_entry (l : list json) (b : float) :
  forallb has_amount l = true ->
  exists es, mapM (top_10_entry (JFloat b)) l = inr es /\ length es = length l.
Proof.
  induction l as [| h l IH]; simpl.
  - intros _. exists []. split; reflexivity.
  - intros [Hh Hl]%andb_prop.
    destruct (top_10_entry_returns h b Hh) as [t Ht].
    destruct (IH Hl) as (es & Hes & Hlen).
    rewrite Ht. simpl. rewrite Hes. simpl. eexists. split; [reflexivity | simpl; congruence].
Qed.

Lemma top_holder_returns (h : json) (l : list json) (b : float) :
  has_amount h = true ->
  exists t, top_holder (JList (h :: l)) (JFloat b) =
            inr (JObj [("address", default JNull (field "owner" h)); ("percentage", JStr t)]).
Proof.
  intros Hh. destruct (has_amount_obj h Hh) as [kv ->].
  unfold top_holder. simpl.
  destruct (f_ltb (f_of_Z 0) b) eqn:Hpos.
  - destruct (share_text_returns _ b Hh Hpos) as [t Ht]. rewrite Ht. simpl.
    exists t. now rewrite get_or_field.
  - simpl. exists "N/A". now rewrite get_or_field.
Qed.


Lemma mapM_fails {A B} (f : A -> py B) (l : list A) :
  forallb (fun a => succeeds (f a)) l = false -> exists e, mapM f l = inl e.
Proof.
  induction l as [| a l IH]; simpl; [discriminate | ].
  destruct (f a) as [e | b]; simpl; [eauto | ].
  intros Hl. destruct (IH Hl) as [e ->]. simpl. eauto.
Qed.

(** The stated amounts are the amounts the code converts. *)
Lemma stated_amount_of (h : json) (a : float) :
  stated_amount h = Some a -> amount_of h = inr a.
Proof.
  destruct h as [| | | | | | kv]; try discriminate.
  unfold stated_amount, amount_of. cbn [py_get bind ret]. unfold get_or.
  destruct (assoc "amount" kv) as [v | ].
  - destruct v as [| b | z | x | s | | ]; cbn [py_float]; try discriminate.
    + intros Ha. now inversion Ha.
    + destruct (f_fits z); intros Ha; [now inversion Ha | discriminate Ha].
    + intros Ha. now inversion Ha.
    + destruct (f_parse s); intros Ha; [now inversion Ha | discriminate Ha].
  - cbn [py_float]. destruct (f_fits 0); intros Ha; [now inversion Ha | discriminate Ha].
Qed.

(** Every amount the code converts is a stated amount. *)
Lemma stated_amount_complete (h : json) :
  has_amount h = true -> exists a, stated_amount h = Some a.
Proof.
  intros Hh. destruct (has_amount_obj h Hh) as [kv ->]. revert Hh.
  unfold has_amount, stated_amount, amount_of. cbn [py_get bind ret]. unfold get_or.
  destruct (assoc "amount" kv) as [v | ].
  - destruct v as [| b | z | x | s | | ]; cbn [py_float succeeds]; try discriminate;
      eauto.
    + destruct (f_fits z); [eauto | discriminate].
    + destruct (f_parse s); [eauto | discriminate].
  - cbn [py_float]. destruct (f_fits 0); [eauto | discriminate].
Qed.

Lemma stated_amounts_exist (l : list json) :
  forallb has_amount l = true -> exists amounts, map stated_amount l = map Some amounts.
Proof.
  induction l as [| h l IH]; [exists []; reflexivity | ].
  cbn [forallb]. intros [Hh Hl]%andb_prop.
  destruct (stated_amount_complete h Hh) as [a Ha]. destruct (IH Hl) as [amounts Hamounts].
  exists (a :: amounts). cbn [map]. now rewrite Ha, Hamounts.
Qed.

Lemma stated_amounts (l : list json) (amounts : list float) :
  map stated_amount l = map Some amounts ->
  forallb has_amount l = true /\ amounts_of l = amounts.
Proof.
  revert amounts. induction l as [| h l IH]; intros [| a amounts]; try discriminate.
  - intros _. split; reflexivity.
  - cbn [map]. intros Heq. inversion Heq as [[Hh Hl]].
    destruct (IH _ Hl) as [Hwf Hamounts].
    unfold has_amount, amounts_of in *. cbn [forallb flat_map].
    rewrite (stated_amount_of h a Hh), Hwf, Hamounts. split; reflexivity.
Qed.

Lemma spec_top10_printed (amounts : list float) :
  py_fmt2 (spec_top10_concentration amounts) +:+ "%" = spec_top10_text amounts.
Proof.
  unfold spec_top10_concentration, spec_top10_text.
  now destruct (f_ltb (f_of_Z 0) (f_sum amounts)).
Qed.

Lemma helius_distribution addr net log resp d l :
  net (helius_holders_request addr) = inr resp ->
  status_code resp = 200 ->
  json_body resp = Some (JObj d) ->
  get_or "holders" d (JList []) = JList l ->
  l <> [] ->
  forallb has_amount l = true ->
  exists top_pct top10,
    get_token_holder_distribution_helius addr net log =
    (log ++ [helius_holders_request addr],
     inr (JObj [("status", JStr "success"); ("token", JStr addr);
                ("source", JStr "Helius RPC");
                ("holder_distribution",
                 JObj [("total_holders", JInt (Z.of_nat (length l)));
                       ("top_10_concentration",
                        JStr (py_fmt2 (spec_top10_concentration (amounts_of l)) +:+ "%"));
                       ("top_holder",
                        JObj [("address", default JNull (field "owner" (hd JNull l)));
                              ("percentage", JStr top_pct)]);
                       ("concentration_risk",
                        JStr (concentration_risk (spec_top10_concentration (amounts_of l))))]);
                ("top_10_holders", JList top10)]))
    /\ length top10 = Nat.min 10 (length l).
Proof.
  intros Hnet Hstatus Hbody Hholders Hne Hwf.
  pose proof (forallb_firstn has_amount 10 l Hwf) as Hwf10.
  assert (Hne10 : firstn 10 l <> []) by (destruct l; [contradiction | discriminate]).
  destruct (mapM_top_10_entry (firstn 10 l) (f_sum (amounts_of l)) Hwf10)
    as (top10 & Htop10 & Hlen10).
  assert (Htop : exists t, top_holder (JList l) (JFloat (f_sum (amounts_of l))) =
                 inr (JObj [("address", default JNull (field "owner" (hd JNull l)));
                            ("percentage", JStr t)])).
  { destruct l as [| h l']; [contradiction | ].
    simpl in Hwf. apply andb_prop in Hwf as [Hh _].
    apply (top_holder_returns h l' _ Hh). }
  destruct Htop as [top_pct Htop].
  exists top_pct, top10. split.
  2:{ rewrite Hlen10. apply length_firstn. }
  unfold get_token_holder_distribution_helius, try_except, io_bind, client_get, lift.
  rewrite Hnet, Hstatus. simpl (200 =? 200). cbv iota.
  unfold response_json. rewrite Hbody.
  cbn [bind ret py_get]. rewrite Hholders.
  replace (truthy (JList l)) with true by (destruct l; [contradiction | reflexivity]).
  cbn [bind ret py_slice py_iter py_len].
  rewrite (mapM_amounts _ Hwf10), (mapM_amounts _ Hwf).
  cbn [bind ret].
  rewrite (py_sum_amounts _ Hne10 Hwf10), (py_sum_amounts _ Hne Hwf).
  rewrite top_10_percentage_spec. cbn [bind ret].
  rewrite Htop. cbn [bind ret]. rewrite Htop10. cbn [bind ret].
  rewrite (amounts_of_firstn 10 l Hwf).
  reflexivity.
Qed.

(** ** The holder tools *)


Lemma helius_no_data addr net log resp d :
  net (helius_holders_request addr) = inr resp ->
  status_code resp = 200 ->
  json_body resp = Some (JObj d) ->
  get_or "holders" d (JList []) = JList [] ->
  get_token_holder_distribution_helius addr net log =
  (log ++ [helius_holders_request addr],
   inr (JObj [("status", JStr "no_data");
              ("message", JStr "No holder data available")])).
Proof.
  intros Hnet Hstatus Hbody Hholders.
  unfold get_token_holder_distribution_helius, try_except, io_bind, client_get, lift.
  rewrite Hnet, Hstatus. simpl (200 =? 200). cbv iota.
  unfold response_json. rewrite Hbody. cbn [bind ret py_get]. rewrite Hholders.
  reflexivity.
Qed.


(** The Helius-backed tool does report a holder distribution. *)
Lemma helius_holder_distribution_fields addr net log resp d l :
  net (helius_holders_request addr) = inr resp ->
  status_code resp = 200 ->
  json_body resp = Some (JObj d) ->
  get_or "holders" d (JList []) = JList l ->
  l <> [] ->
  forallb has_amount l = true ->
  exists log' v,
    get_token_holder_distribution_helius addr net log = (log', inr v) /\
    has_fields "holder_distribution"
      ["total_holders"; "top_10_concentration"; "top_holder"; "concentration_risk"] v
      = true /\
    field2 "holder_distribution" "total_holders" v = Some (JInt (Z.of_nat (length l))) /\
    field2 "holder_distribution" "concentration_risk" v =
      Some (JStr (concentration_risk (spec_top10_concentration (amounts_of l)))).
Proof.
  intros Hnet Hstatus Hbody Hholders Hne Hwf.
  destruct (helius_distribution addr net log resp d _ Hnet Hstatus Hbody Hholders Hne Hwf)
    as (top_pct & top10 & Hrun & _).
  eexists _, _. split; [exact Hrun | ]. repeat split; reflexivity.
Qed.

(** The DexScreener-backed tool never does, whatever the upstream
    answers: none of its results has a holder field. *)
Lemma get_token_holders_no_holder_fields addr :
  always (get_token_holders addr)
    (fun v => field "holder_distribution" v = None /\
              field "total_holders" v = None /\
              field "top_10_concentration" v = None /\
              field "top_holder" v = None /\
              field "concentration_risk" v = None).
Proof.
  unfold get_token_holders. apply always_try.
  - apply posts_bind_any. intros response. apply posts_lift.
    repeat first
      [ apply pposts_ret; repeat split; reflexivity
      | apply pposts_bind_any; intros ?
      | match goal with
        | |- pposts (if ?b then _ else _) _ => destruct b
        end ].
  - intros e net log. eexists _, _. split; [reflexivity | repeat split; reflexivity].
Qed.

(** ** Thresholds *)

Lemma py_le_not_gt (p : json) (n : Z) : py_le p n = true -> py_gt p n = false.
Proof.
  destruct p; simpl; try reflexivity.
  - intros Hle. apply Z.ltb_ge. now apply Z.leb_le.
  - apply f_leb_not_gt.
Qed.

Lemma py_gt_mono (p : json) (m n : Z) :
  m <= n -> py_gt p n = true -> py_gt p m = true.
Proof.
  intros Hmn. destruct p; simpl; try discriminate.
  - intros Hlt. apply Z.ltb_lt in Hlt. apply Z.ltb_lt. lia.
  - now apply f_gt_mono.
Qed.

Lemma py_le_not_gt_above (p : json) (m n : Z) :
  m <= n -> py_le p m = true -> py_gt p n = false.
Proof.
  intros Hmn Hle. destruct (py_gt p n) eqn:Hgt; [ | reflexivity ].
  apply (py_gt_mono p m n Hmn) in Hgt.
  now rewrite (py_le_not_gt p m Hle) in Hgt.
Qed.

(** The nested conditional, threshold by threshold. *)
Lemma concentration_risk_thresholds (p : json) :
  (concentration_risk p = "CRITICAL" \/ concentration_risk p = "HIGH" \/
   concentration_risk p = "MEDIUM" \/ concentration_risk p = "LOW") /\
  (py_gt p 70 = true -> concentration_risk p = "CRITICAL") /\
  (py_gt p 50 = true -> py_le p 70 = true -> concentration_risk p = "HIGH") /\
  (py_gt p 30 = true -> py_le p 50 = true -> concentration_risk p = "MEDIUM") /\
  (py_le p 30 = true -> concentration_risk p = "LOW").
Proof.
  unfold concentration_risk. repeat split.
  - destruct (py_gt p 70), (py_gt p 50), (py_gt p 30); tauto.
  - now intros ->.
  - intros H50 H70. now rewrite (py_le_not_gt p 70 H70), H50.
  - intros H30 H50.
    rewrite (py_le_not_gt_above p 50 70) by (lia || assumption).
    now rewrite (py_le_not_gt p 50 H50), H30.
  - intros H30.
    rewrite (py_le_not_gt_above p 30 70), (py_le_not_gt_above p 30 50)
      by (lia || assumption).
    now rewrite (py_le_not_gt p 30 H30).
Qed.

Lemma above_py_gt (p : json) (n : Z) : above p n = py_gt p n.
Proof. now destruct p. Qed.

(** A record whose amount cannot be converted ends the computation
    with an exception. *)
Lemma helius_unusable_amount addr net log resp d l :
  net (helius_holders_request addr) = inr resp ->
  status_code resp = 200 ->
  json_body resp = Some (JObj d) ->
  get_or "holders" d (JList []) = JList l ->
  forallb has_amount l = false ->
  exists e,
    get_token_holder_distribution_helius addr net log =
    (log ++ [helius_holders_request addr],
     inr (JObj [("status", JStr "error"); ("message", JStr (exn_msg e));
                ("note", JStr "Helius RPC may be temporarily unavailable")])).
Proof.
  intros Hnet Hstatus Hbody Hholders Hbad.
  assert (Hne : truthy (JList l) = true) by (destruct l; [discriminate | reflexivity]).
  destruct (mapM_fails amount_of l Hbad) as [e He].
  unfold get_token_holder_distribution_helius, try_except, io_bind, client_get, lift.
  rewrite Hnet, Hstatus. simpl (200 =? 200). cbv iota.
  unfold response_json. rewrite Hbody. cbn [bind ret py_get]. rewrite Hholders, Hne.
  cbn [bind ret py_slice py_iter].
  destruct (mapM amount_of (firstn 10 l)) as [e10 | amounts10].
  - exists e10. reflexivity.
  - cbn [bind]. rewrite He. exists e. reflexivity.
Qed.

(** C3. When Helius answers 200 with a list of holder records, the
    tool reports a holder distribution exactly for a non-empty list of
    records that state their amounts.  It then reports the percentage
    [p] computed from them and, under [concentration_risk], one of the
    four categories: CRITICAL when [p > 70], HIGH when [50 < p <= 70],
    MEDIUM when [30 < p <= 50] and LOW when [p <= 30]. *)
Theorem concentration_risk_categories addr net log resp d l :
  net (helius_holders_request addr) = inr resp ->
  status_code resp = 200 ->
  json_body resp = Some (JObj d) ->
  get_or "holders" d (JList []) = JList l ->
  exists log' v,
    get_token_holder_distribution_helius addr net log = (log', inr v) /\
    (field "status" v = Some (JStr "success") ->
     l <> [] /\ exists amounts, map stated_amount l = map Some amounts) /\
    (forall amounts,
       l <> [] ->
       map stated_amount l = map Some amounts ->
       exists risk,
         field "status" v = Some (JStr "success") /\
         field2 "holder_distribution" "top_10_concentration" v =
           Some (JStr (spec_top10_text amounts)) /\
         field2 "holder_distribution" "concentration_risk" v = Some (JStr risk) /\
         (risk = "CRITICAL" \/ risk = "HIGH" \/ risk = "MEDIUM" \/ risk = "LOW") /\
         (above (spec_top10_concentration amounts) 70 = true -> risk = "CRITICAL") /\
         (above (spec_top10_concentration amounts) 50 = true ->
          py_le (spec_top10_concentration amounts) 70 = true -> risk = "HIGH") /\
         (above (spec_top10_concentration amounts) 30 = true ->
          py_le (spec_top10_concentration amounts) 50 = true -> risk = "MEDIUM") /\
         (py_le (spec_top10_concentration amounts) 30 = true -> risk = "LOW")).
Proof.
  intros Hnet Hstatus Hbody Hholders.
  destruct l as [| h l'].
  { eexists _, _. split; [apply (helius_no_data _ _ _ _ _ Hnet Hstatus Hbody Hholders) | ].
    split; [discriminate | intros amounts Hne; contradiction]. }
  assert (Hne : h :: l' <> []) by discriminate.
  destruct (forallb has_amount (h :: l')) eqn:Hwf.
  - destruct (helius_distribution addr net log resp d _ Hnet Hstatus Hbody Hholders Hne Hwf)
      as (top_pct & top10 & Hrun & _).
    eexists _, _. split; [exact Hrun | ]. split.
    + intros _. split; [exact Hne | exact (stated_amounts_exist _ Hwf)].
    + intros amounts _ Hstated.
      destruct (stated_amounts _ amounts Hstated) as [_ ->].
      eexists. split; [reflexivity | ].
      split; [rewrite <- spec_top10_printed; reflexivity | ]. split; [reflexivity | ].
      rewrite !above_py_gt.
      exact (concentration_risk_thresholds (spec_top10_concentration amounts)).
  - destruct (helius_unusable_amount addr net log resp d _ Hnet Hstatus Hbody Hholders Hwf)
      as [e Hrun].
    eexists _, _. split; [exact Hrun | ]. split; [discriminate | ].
    intros amounts _ Hstated.
    destruct (stated_amounts _ amounts Hstated) as [Hok _]. congruence.
Qed.

(** ** The security tool *)

(** C4 (amended). When GoPlus answers 200 and its payload holds a
    non-empty record for the token, the tool succeeds and [risk_level]
    is ["medium"] when the record's [is_mint_authority_renounced] is
    present and truthy, and ["high"] when it is falsy or absent; it is
    never ["unknown"]. *)
Theorem security_risk_level addr chain net log resp d r td :
  net (goplus_request addr) = inr resp ->
  status_code resp = 200 ->
  json_body resp = Some (JObj d) ->
  assoc "result" d = Some (JObj r) ->
  assoc addr r = Some (JObj td) ->
  td <> [] ->
  exists log' v,
    analyze_token_security addr chain net log = (log', inr v) /\
    field "status" v = Some (JStr "success") /\
    field "risk_level" v =
      Some (JStr (if truthy (get_or "is_mint_authority_renounced" td JNull)
                  then "medium" else "high")).
Proof.
  intros Hnet Hstatus Hbody Hresult Htoken Hne.
  unfold analyze_token_security, try_except, io_bind, client_get, lift.
  rewrite Hnet, Hstatus. simpl (200 =? 200). cbv iota.
  unfold response_json. rewrite Hbody.
  cbn [bind ret py_get]. rewrite (get_or_Some _ _ _ _ Hresult).
  cbn [bind ret py_get]. rewrite (get_or_Some _ _ _ _ Htoken).
  replace (truthy (JObj td)) with true by (destruct td; [contradiction | reflexivity]).
  cbn [bind ret py_get].
  eexists _, _. split; [reflexivity | ].
  split; [reflexivity | ].
  simpl. now destruct (truthy (get_or "is_mint_authority_renounced" td JNull)).
Qed.

(** ** The metadata tool *)

Lemma metadata_requests addr net log :
  exists log' v,
    get_token_metadata_and_security addr net log = (log', inr v) /\
    (log' = log ++ [solscan_request addr] \/
     log' = log ++ [solscan_request addr; jupiter_request addr]) /\
    (log' = log ++ [solscan_request addr; jupiter_request addr] <->
     exists r, net (solscan_request addr) = inr r /\ status_code r <> 200).
Proof.
  assert (Hlen : forall a b : request, log ++ [a] <> log ++ [a; b]).
  { intros a b Heq. apply (f_equal (@length request)) in Heq.
    rewrite !length_app in Heq. simpl in Heq. lia. }
  unfold get_token_metadata_and_security, try_except, io_bind, client_get, lift, error_result.
  destruct (net (solscan_request addr)) as [e | r] eqn:Hs.
  - eexists _, _. split; [reflexivity | ]. split; [now left | ].
    split; [intros Heq; now apply Hlen in Heq | intros (r & Hr & _); discriminate].
  - destruct (status_code r =? 200) eqn:H200.
    + apply Z.eqb_eq in H200.
      match goal with
      | |- context [match ?c with inr a => (_, inr a) | inl e => _ end] =>
          destruct c as [e | v]
      end; (eexists _, _; split; [reflexivity | ]; split; [now left | ];
        split; [intros Heq; now apply Hlen in Heq
               | intros (r' & Hr & Hne); congruence]).
    + apply Z.eqb_neq in H200.
      rewrite <- app_assoc. simpl ([_] ++ [_]).
      destruct (net (jupiter_request addr)) as [e | r2].
      * eexists _, _. split; [reflexivity | ]. split; [now right | ].
        split; [intros _; eauto | reflexivity].
      * match goal with
        | |- context [match ?c with inr a => (_, inr a) | inl e => _ end] =>
            destruct c as [e | v]
        end; (eexists _, _; split; [reflexivity | ]; split; [now right | ];
          split; [intros _; eauto | reflexivity]).
Qed.











(** ** The trending tool *)









(** What an entry carries over from its pair. *)
Lemma trending_entry_fields (pair e : json) :
  trending_entry pair = inr e ->
  exists vol liq,
    get2 pair "volume" "h24" = inr vol /\
    get2 pair "liquidity" "usd" = inr liq /\
    field "volume_24h" e = Some vol /\
    field "liquidity_usd" e = Some liq.
Proof.
  unfold trending_entry.
  repeat match goal with
         | |- bind ?c _ = _ -> _ => destruct c as [? | ?]; [discriminate | cbn [bind]]
         end.
  intros He. inversion He. eexists _, _. repeat split; reflexivity.
Qed.











(** ** The transaction-history tool *)

(** What one iteration adds to the two accumulators. *)
Lemma tx_step_spec (acc : tx_acc) (tx : json) :
  has_amount tx = true ->
  exists note,
    tx_step acc tx =
    inr (TxAcc (large_tx_count acc + (if is_large tx then 1 else 0))
               (suspicious_patterns acc ++ (if is_suspicious tx then [note] else []))).
Proof.
  intros Htx. destruct (has_amount_obj tx Htx) as [kv ->].
  destruct (amount_of_has_amount _ Htx) as [a Ha].
  unfold tx_step, is_large, is_suspicious. rewrite Ha. cbn [bind ret py_get field].
  exists (JStr ("Suspicious tx type: " +:+ str_of (get_or "type" kv (JStr "unknown")))).
  unfold get_or. destruct (assoc "type" kv) as [t | ]; cbn [eq_str String.eqb orb].
  - destruct (f_ltb (f_of_Z 1000000) a), (eq_str t "SPAM" || eq_str t "SCAM");
      rewrite ?Z.add_0_r, ?app_nil_r; reflexivity.
  - simpl. destruct (f_ltb (f_of_Z 1000000) a);
      rewrite ?Z.add_0_r, ?app_nil_r; reflexivity.
Qed.

Lemma foldM_tx_step (l : list json) (acc : tx_acc) :
  forallb has_amount l = true ->
  exists notes,
    foldM tx_step acc l =
    inr (TxAcc (large_tx_count acc + Z.of_nat (length (List.filter is_large l)))
               (suspicious_patterns acc ++ notes)) /\
    (match notes with [] => false | _ => true end) = existsb is_suspicious l.
Proof.
  revert acc. induction l as [| tx l IH]; intros acc; simpl.
  - intros _. exists []. rewrite Z.add_0_r, app_nil_r. destruct acc. split; reflexivity.
  - intros [Htx Hl]%andb_prop.
    destruct (tx_step_spec acc tx Htx) as [note ->]. cbn [bind].
    destruct (IH (TxAcc (large_tx_count acc + (if is_large tx then 1 else 0))
                        (suspicious_patterns acc ++ (if is_suspicious tx then [note] else [])))
                 Hl) as (notes & -> & Hnotes).
    cbn [large_tx_count suspicious_patterns].
    exists ((if is_suspicious tx then [note] else []) ++ notes). split.
    + f_equal. f_equal.
      * destruct (is_large tx); cbn [length]; rewrite ?Nat2Z.inj_succ; lia.
      * now rewrite app_assoc.
    + destruct (is_suspicious tx); simpl; [reflexivity | exact Hnotes].
Qed.





End ToolFacts.

(** ** Configuration and the executor *)

Lemma load_config_with_key (environ dotenv : gmap string string) (key : string) :
  load_dotenv environ dotenv !! "GOOGLE_API_KEY" = Some key ->
  key <> "" ->
  load_config environ dotenv = inr (Config key "gemini-2.0-flash" (2 # 10)).
Proof.
  intros Hkey Hne. unfold load_config, getenv. rewrite Hkey. simpl.
  destruct (String.eqb_spec key ""); [contradiction | reflexivity].
Qed.


(** C9. For every request context and event queue, [cancel] raises the
    exception "cancel not supported" and leaves the queue as it was; it
    never returns normally. *)
Theorem cancel_always_raises (context : request_context) (event_queue : list event) :
  cancel context event_queue =
    (event_queue, inl (Exn PlainException "cancel not supported")) /\
  (forall queue' r, cancel context event_queue <> (queue', inr r)).
Proof.
  split; [reflexivity | ]. intros queue' r. unfold cancel. intros Heq. inversion Heq.
Qed.

(** * The claims on the sample payloads *)

Lemma tool_call_returns_status_dict_witness :
  In Sample.trending_tool get_tools /\
  exists log' v,
    invoke Sample.trending_tool (default_input Sample.SOL) Sample.net_down []
      = (log', inr v) /\
    has_status v = true.
Proof.
  assert (Hin : In Sample.trending_tool get_tools) by (simpl; tauto).
  split; [exact Hin | ].
  apply (tool_call_returns_status_dict Sample.trending_tool _ Sample.net_down [] Hin).
Defined.



(** By the spec's formula the twelve sample amounts give 98 percent,
    a CRITICAL concentration. *)
Example twelve_amounts_concentration :
  spec_top10_text Fixture.twelve_amounts = "98.00%" /\
  above (spec_top10_concentration Fixture.twelve_amounts) 70 = true.
Proof. split; reflexivity. Qed.

Lemma concentration_risk_categories_witness :
  Sample.answers (JObj Sample.holders_body) (helius_holders_request Sample.SOL)
    = inr (Response 200 "" (Some (JObj Sample.holders_body))) /\
  get_or "holders" Sample.holders_body (JList []) = JList Sample.twelve_holders /\
  Sample.twelve_holders <> [] /\
  map stated_amount Sample.twelve_holders = map Some Fixture.twelve_amounts /\
  exists risk,
    field2 "holder_distribution" "concentration_risk"
      (returned (get_token_holder_distribution_helius Sample.SOL)
                (Sample.answers (JObj Sample.holders_body)))
      = Some (JStr risk) /\
    (above (spec_top10_concentration Fixture.twelve_amounts) 70 = true ->
     risk = "CRITICAL").
Proof.
  assert (Hne : Sample.twelve_holders <> []) by discriminate.
  split; [reflexivity | ]. split; [reflexivity | ]. split; [exact Hne | ].
  split; [reflexivity | ].
  destruct (concentration_risk_categories Sample.SOL
              (Sample.answers (JObj Sample.holders_body)) []
              (Response 200 "" (Some (JObj Sample.holders_body)))
              Sample.holders_body Sample.twelve_holders
              eq_refl eq_refl eq_refl eq_refl)
    as (log' & v & Hrun & _ & Hrisk).
  destruct (Hrisk Fixture.twelve_amounts Hne eq_refl)
    as (risk & _ & _ & Hfield & _ & Hcritical & _).
  exists risk. unfold returned, run. rewrite Hrun. split; [exact Hfield | exact Hcritical].
Defined.

(** The sample of twelve holders: the first ten hold 98 of 100. *)
Example twelve_holders_concentration :
  field "holder_distribution"
    (returned (get_token_holder_distribution_helius Sample.SOL)
              (Sample.answers (JObj Sample.holders_body)))
  = Some (JObj [("total_holders", JInt 12);
                ("top_10_concentration", JStr "98.00%");
                ("top_holder",
                 JObj [("address", JStr "w1"); ("percentage", JStr "50.00%")]);
                ("concentration_risk", JStr "CRITICAL")]).
Proof. reflexivity. Qed.

(** A sample whose total is zero: nothing is divided. *)
Example zero_total_concentration :
  field "holder_distribution"
    (returned (get_token_holder_distribution_helius Sample.SOL)
              (Sample.answers (JObj Sample.empty_accounts_body)))
  = Some (JObj [("total_holders", JInt 2);
                ("top_10_concentration", JStr "0.00%");
                ("top_holder",
                 JObj [("address", JStr "w1"); ("percentage", JStr "N/A")]);
                ("concentration_risk", JStr "LOW")]).
Proof. reflexivity. Qed.

(** The claim of C4 fails when the mint-authority field is absent: the
    token is found, and the risk level is ["high"]. *)
Lemma absent_mint_field_is_high :
  assoc "is_mint_authority_renounced" Sample.token_data_without_mint = None /\
  run (analyze_token_security Sample.SOL "solana")
      (Sample.answers (JObj Sample.goplus_body))
    = ([goplus_request Sample.SOL],
       inr (JObj [("status", JStr "success");
                  ("token", JStr Sample.SOL);
                  ("security_metrics",
                   JObj [("mint_authority", JStr "unknown");
                         ("freeze_authority", JStr "unknown");
                         ("liquidity_type", JStr "burned");
                         ("owner_balance_holder_ratio", JInt 0)]);
                  ("risk_level", JStr "high")])).
Proof. split; reflexivity. Qed.

Lemma security_risk_level_witness :
  Sample.answers (JObj Sample.goplus_body) (goplus_request Sample.SOL)
    = inr (Response 200 "" (Some (JObj Sample.goplus_body))) /\
  assoc "result" Sample.goplus_body = Some (JObj Sample.goplus_result) /\
  assoc Sample.SOL Sample.goplus_result = Some (JObj Sample.token_data_without_mint) /\
  Sample.token_data_without_mint <> [] /\
  exists log' v,
    analyze_token_security Sample.SOL "solana"
      (Sample.answers (JObj Sample.goplus_body)) [] = (log', inr v) /\
    field "status" v = Some (JStr "success") /\
    field "risk_level" v =
      Some (JStr (if truthy (get_or "is_mint_authority_renounced"
                               Sample.token_data_without_mint JNull)
                  then "medium" else "high")).
Proof.
  repeat (split; [reflexivity || discriminate | ]).
  apply (security_risk_level Sample.SOL "solana"
           (Sample.answers (JObj Sample.goplus_body)) []
           (Response 200 "" (Some (JObj Sample.goplus_body)))
           Sample.goplus_body Sample.goplus_result Sample.token_data_without_mint);
    reflexivity || discriminate.
Defined.


(** The fallback at work: Solscan answers 503, Jupiter is queried once,
    and the result has no supply information. *)
Example fallback_on_error_status :
  run (get_token_metadata_and_security Sample.SOL) Sample.solscan_unavailable
    = ([solscan_request Sample.SOL; jupiter_request Sample.SOL],
       inr (JObj [("status", JStr "success");
                  ("token", JStr Sample.SOL);
                  ("source", JStr "Jupiter");
                  ("metadata",
                   JObj [("name", JStr "Wrapped SOL"); ("symbol", JStr "SOL");
                         ("decimals", JInt 9); ("logo", JStr "")])])).
Proof. reflexivity. Qed.

(** C6. On a 200 answer of DexScreener that lists a pair,
    [get_token_holders] returns liquidity, volume, FDV and market cap:
    no holder count, no concentration, no top holder, no risk class. *)
Theorem get_token_holders_returns_market_data :
  run (get_token_holders Sample.SOL) (Sample.answers Sample.listed_body)
    = ([dexscreener_search Sample.SOL],
       inr (JObj [("status", JStr "success");
                  ("token", JStr Sample.SOL);
                  ("liquidity_usd", JInt 5000);
                  ("volume_24h", JInt 1200);
                  ("fdv", JInt 100000);
                  ("market_cap", JInt 90000)])).
Proof. reflexivity. Qed.



(** With a key in the [.env] file the configuration loads. *)
Example config_loads_with_key :
  load_config ∅ {[ "GOOGLE_API_KEY" := "AIza-sample" ]}
    = inr (Config "AIza-sample" "gemini-2.0-flash" (2 # 10)).
Proof. apply load_config_with_key; [reflexivity | discriminate]. Qed.


(** The first five sample transactions state their amounts, four of
    them above the threshold: the risk is HIGH by the claim's words and
    in the tool's result.  The sixth is not a record at all. *)
Example six_transactions_risk :
  map stated_amount (firstn 5 Sample.six_transactions) = map Some Fixture.five_amounts /\
  spec_risk_level Fixture.five_amounts (firstn 5 Sample.six_transactions) = "HIGH" /\
  field2 "transaction_analysis" "risk_level"
    (returned (get_token_transaction_history Sample.SOL 10)
              (Sample.answers (JObj Sample.transactions_body)))
    = Some (JStr "HIGH") /\
  stated_amount (nth 5 Sample.six_transactions JNull) = None.
Proof. repeat split; reflexivity. Qed.


(** The thresholds at their boundaries: 70 is HIGH, 50 is MEDIUM and
    30 is LOW; the integer [0] of an empty total is LOW. *)
Example concentration_risk_boundaries :
  concentration_risk (JFloat (H := ExactFloat.exact) (701 # 10)) = "CRITICAL" /\
  concentration_risk (JFloat (H := ExactFloat.exact) (70 # 1)) = "HIGH" /\
  concentration_risk (JFloat (H := ExactFloat.exact) (50 # 1)) = "MEDIUM" /\
  concentration_risk (JFloat (H := ExactFloat.exact) (30 # 1)) = "LOW" /\
  concentration_risk (JInt (H := ExactFloat.exact) 0) = "LOW".
Proof. repeat split; reflexivity. Qed.

(** * Further properties of the tools *)

Section MoreToolFacts.

Context `{PyFloat}.

Ltac unfold_tools :=
  cbv beta zeta delta
    [analyze_token_security get_token_metadata_and_security
     analyze_token_with_rugcheck check_security_incidents
     check_certik_audit_status get_token_holder_distribution_helius
     get_token_transaction_history get_token_holders get_trading_metrics
     get_token_details get_trending_tokens try_except io_bind client_get lift].

(** The shape ten of the eleven tools share: one request, a body that
    only computes, a handler that only computes. *)
Lemma one_request_log (req : request) (f : response -> py json)
    (h : exn -> io json) net log :
  (forall e net' log', fst (h e net' log') = log') ->
  fst (try_except (io_bind (client_get req) (fun r => lift (f r))) h net log)
  = log ++ [req].
Proof.
  intros Hh. unfold try_except, io_bind, client_get, lift.
  destruct (net req) as [e | r]; [apply Hh | ].
  destruct (f r) as [e | v]; [apply Hh | reflexivity].
Qed.

Lemma error_result_log e net log : fst (error_result e net log) = log.
Proof. reflexivity. Qed.

Lemma error_result_note_log note e net log : fst (error_result_note note e net log) = log.
Proof. reflexivity. Qed.

(** X1. A call of a registered tool sends one request and no more; the
    metadata tool alone may send two.  Nothing is retried, and the
    requests sent before are kept. *)
Theorem tools_send_one_request (t : tool) (input : tool_input) net log :
  In t get_tools ->
  exists reqs,
    fst (invoke t input net log) = log ++ reqs /\
    (length reqs = 1%nat \/
     (tool_name t = "get_token_metadata_and_security" /\ length reqs = 2%nat)).
Proof.
  intros Hin. unfold get_tools in Hin. simpl in Hin.
  repeat (destruct Hin as [<- | Hin]; [cbn [invoke tool_name] | ]); [ .. | contradiction ].
  2:{ destruct (metadata_requests (token_address input) net log)
        as (log' & v & Hrun & [-> | ->] & _); rewrite Hrun; cbn [fst];
        eexists; (split; [reflexivity | ]); [now left | right; split; reflexivity]. }
  all: eexists; split;
    [ apply one_request_log; first [ apply error_result_log | apply error_result_note_log ]
    | left; reflexivity ].
Qed.

(** X2. When the request raises, every registered tool returns, after
    that one request, an ["error"] result whose message is the text of
    the exception. *)
Theorem tools_report_network_failure (t : tool) (input : tool_input) net log e :
  In t get_tools ->
  (forall req, net req = inl e) ->
  exists req v,
    invoke t input net log = (log ++ [req], inr v) /\
    field "status" v = Some (JStr "error") /\
    field "message" v = Some (JStr (exn_msg e)).
Proof.
  intros Hin Hnet. unfold get_tools in Hin. simpl in Hin.
  repeat (destruct Hin as [<- | Hin]; [cbn [invoke] | ]); [ .. | contradiction ].
  all: eexists _, _; split;
    [ unfold_tools; rewrite Hnet; reflexivity
    | split; reflexivity ].
Qed.

(** X3. When every request is answered with the same status other than
    200, each registered tool returns the status and the message of
    the table: an error naming the status code for most, and
    [not_found], [unknown] or [not_audited] for the Rugcheck, incident
    and audit tools. *)
Theorem tools_report_http_error (t : tool) (input : tool_input) net log code :
  In t get_tools ->
  code <> 200 ->
  (forall req, exists r, net req = inr r /\ status_code r = code) ->
  exists log' v,
    invoke t input net log = (log', inr v) /\
    field "status" v = Some (JStr (status_on_http_error (tool_name t))) /\
    field "message" v = Some (JStr (message_on_http_error (tool_name t) code)).
Proof.
  intros Hin Hcode Hnet. apply Z.eqb_neq in Hcode.
  unfold get_tools in Hin. simpl in Hin.
  repeat (destruct Hin as [<- | Hin]; [cbn [invoke tool_name] | ]);
    [ .. | contradiction ];
    unfold_tools;
    repeat match goal with
      | |- context [net ?req] =>
          let r := fresh "r" in
          let Hr := fresh "Hr" in
          let Hs := fresh "Hs" in
          destruct (Hnet req) as (r & Hr & Hs); rewrite Hr, Hs, Hcode
      end;
    (eexists _, _; split; [reflexivity | split; reflexivity]).
Qed.

(** X4. The three tools that search DexScreener answer [not_found]
    when the payload has no pairs: the key absent, an empty list, or
    any other falsy value. *)
Theorem dexscreener_tools_not_found addr net log resp d :
  net (dexscreener_search addr) = inr resp ->
  status_code resp = 200 ->
  json_body resp = Some (JObj d) ->
  truthy (get_or "pairs" d (JList [])) = false ->
  get_token_holders addr net log =
    (log ++ [dexscreener_search addr],
     inr (JObj [("status", JStr "not_found");
                ("message", JStr "Token not found on DexScreener")])) /\
  get_trading_metrics addr net log =
    (log ++ [dexscreener_search addr],
     inr (JObj [("status", JStr "not_found"); ("message", JStr "Token not found")])) /\
  get_token_details addr net log =
    (log ++ [dexscreener_search addr],
     inr (JObj [("status", JStr "not_found"); ("message", JStr "Token not found")])).
Proof.
  intros Hnet Hstatus Hbody Hpairs.
  repeat split; unfold_tools; rewrite Hnet, Hstatus; simpl (200 =? 200); cbv iota;
    unfold response_json; rewrite Hbody; cbn [bind ret py_get]; rewrite Hpairs;
    reflexivity.
Qed.

(** ** The incident check *)

Lemma contains_empty (hay : string) : contains "" hay = true.
Proof. destruct hay; reflexivity. Qed.

(** X5. The verdict of the incident check depends on the search term
    up to letter case only: two calls whose terms (the project name,
    or else the first eight characters of the address) agree after
    lowering return the same status and risk level. *)
Theorem incident_check_matches_search_term addr addr' name name' net log :
  lower (search_term addr name) = lower (search_term addr' name') ->
  exists v v',
    check_security_incidents addr name net log = (log ++ [slowmist_request], inr v) /\
    check_security_incidents addr' name' net log = (log ++ [slowmist_request], inr v') /\
    field "status" v = field "status" v' /\
    field "risk_level" v = field "risk_level" v'.
Proof.
  intros Hterm.
  unfold check_security_incidents, try_except, io_bind, client_get, lift. cbv zeta.
  change (Request (SLOWMIST_API +:+ "/") []) with slowmist_request.
  rewrite Hterm.
  destruct (net (slowmist_request)) as [e | r].
  - eexists _, _. repeat split; reflexivity.
  - destruct (status_code r =? 200).
    + destruct (contains (lower (search_term addr' name')) (lower (text r)));
        eexists _, _; repeat split; reflexivity.
    + eexists _, _. repeat split; reflexivity.
Qed.

(** X6. With an empty search term (no project name and an empty
    address) every page matches: on a 200 answer the check warns and
    reports a high risk. *)
Theorem incident_check_empty_term_warns addr name net log resp :
  search_term addr name = "" ->
  net (slowmist_request) = inr resp ->
  status_code resp = 200 ->
  exists v,
    check_security_incidents addr name net log
      = (log ++ [slowmist_request], inr v) /\
    field "status" v = Some (JStr "warning") /\
    field "risk_level" v = Some (JStr "high").
Proof.
  intros Hterm Hnet Hstatus.
  unfold check_security_incidents, try_except, io_bind, client_get, lift. cbv zeta.
  change (Request (SLOWMIST_API +:+ "/") []) with slowmist_request.
  rewrite Hterm, Hnet, Hstatus. simpl (200 =? 200). cbv iota.
  change (lower "") with "". rewrite contains_empty.
  eexists. repeat split; reflexivity.
Qed.

(** ** Holders *)

(** X7. One holder record without a usable amount, anywhere in the
    sample and also after the tenth, makes the Helius tool return an
    error result. *)
Theorem helius_malformed_holder_is_error addr net log resp d l :
  net (helius_holders_request addr) = inr resp ->
  status_code resp = 200 ->
  json_body resp = Some (JObj d) ->
  get_or "holders" d (JList []) = JList l ->
  forallb has_amount l = false ->
  exists e,
    get_token_holder_distribution_helius addr net log =
    (log ++ [helius_holders_request addr],
     inr (JObj [("status", JStr "error"); ("message", JStr (exn_msg e));
                ("note", JStr "Helius RPC may be temporarily unavailable")])).
Proof.
  intros Hnet Hstatus Hbody Hholders Hbad.
  assert (Hne : truthy (JList l) = true) by (destruct l; [discriminate | reflexivity]).
  destruct (mapM_fails amount_of l Hbad) as [e He].
  unfold get_token_holder_distribution_helius, try_except, io_bind, client_get, lift.
  rewrite Hnet, Hstatus. simpl (200 =? 200). cbv iota.
  unfold response_json. rewrite Hbody. cbn [bind ret py_get]. rewrite Hholders, Hne.
  cbn [bind ret py_slice py_iter].
  destruct (mapM amount_of (firstn 10 l)) as [e10 | amounts10].
  - exists e10. reflexivity.
  - cbn [bind]. rewrite He. exists e. reflexivity.
Qed.

Lemma top_10_entry_flat (h : json) (b : float) :
  has_amount h = true -> f_ltb (f_of_Z 0) b = false ->
  top_10_entry (JFloat b) h =
  inr (JObj [("address", default JNull (field "owner" h)); ("percentage", JStr "0%")]).
Proof.
  intros Hh Hb. destruct (has_amount_obj h Hh) as [kv ->].
  unfold top_10_entry. simpl. rewrite Hb. simpl. now rewrite get_or_field.
Qed.

Lemma mapM_top_10_entry_flat (l : list json) (b : float) :
  forallb has_amount l = true -> f_ltb (f_of_Z 0) b = false ->
  mapM (top_10_entry (JFloat b)) l =
  inr (map (fun h => JObj [("address", default JNull (field "owner" h));
                           ("percentage", JStr "0%")]) l).
Proof.
  intros Hwf Hb. induction l as [| h l IH]; simpl; [reflexivity | ].
  simpl in Hwf. apply andb_prop in Hwf as [Hh Hl].
  rewrite (top_10_entry_flat h b Hh Hb). simpl. rewrite (IH Hl). reflexivity.
Qed.

Lemma top_holder_na (h : json) (l : list json) (b : float) :
  has_amount h = true -> f_ltb (f_of_Z 0) b = false ->
  top_holder (JList (h :: l)) (JFloat b) =
  inr (JObj [("address", default JNull (field "owner" h)); ("percentage", JStr "N/A")]).
Proof.
  intros Hh Hb. destruct (has_amount_obj h Hh) as [kv ->].
  unfold top_holder. simpl. rewrite Hb. simpl. now rewrite get_or_field.
Qed.

(** X8. When the total of the sample is not positive the Helius tool
    still succeeds: the concentration is ["0.00%"] and the risk LOW,
    the top holder's share reads ["N/A"] and every listed holder's
    share reads ["0%"]. *)
Theorem helius_non_positive_total addr net log resp d h l :
  net (helius_holders_request addr) = inr resp ->
  status_code resp = 200 ->
  json_body resp = Some (JObj d) ->
  get_or "holders" d (JList []) = JList (h :: l) ->
  forallb has_amount (h :: l) = true ->
  f_ltb (f_of_Z 0) (f_sum (amounts_of (h :: l))) = false ->
  get_token_holder_distribution_helius addr net log =
  (log ++ [helius_holders_request addr],
   inr (JObj [("status", JStr "success"); ("token", JStr addr);
              ("source", JStr "Helius RPC");
              ("holder_distribution",
               JObj [("total_holders", JInt (Z.of_nat (length (h :: l))));
                     ("top_10_concentration", JStr "0.00%");
                     ("top_holder",
                      JObj [("address", default JNull (field "owner" h));
                            ("percentage", JStr "N/A")]);
                     ("concentration_risk", JStr "LOW")]);
              ("top_10_holders",
               JList (map (fun h' => JObj [("address", default JNull (field "owner" h'));
                                           ("percentage", JStr "0%")])
                          (firstn 10 (h :: l))))])).
Proof.
  intros Hnet Hstatus Hbody Hholders Hwf Hb.
  pose proof (forallb_firstn has_amount 10 _ Hwf) as Hwf10.
  assert (Hne : h :: l <> []) by discriminate.
  assert (Hne10 : firstn 10 (h :: l) <> []) by discriminate.
  assert (Hh : has_amount h = true) by (simpl in Hwf; now apply andb_prop in Hwf).
  unfold get_token_holder_distribution_helius, try_except, io_bind, client_get, lift.
  rewrite Hnet, Hstatus. simpl (200 =? 200). cbv iota.
  unfold response_json. rewrite Hbody. cbn [bind ret py_get]. rewrite Hholders.
  cbn [truthy bind ret py_slice py_iter py_len].
  rewrite (mapM_amounts _ Hwf10), (mapM_amounts _ Hwf). cbn [bind ret].
  rewrite (py_sum_amounts _ Hne10 Hwf10), (py_sum_amounts _ Hne Hwf).
  rewrite top_10_percentage_spec, Hb. cbn [bind ret].
  rewrite (top_holder_na h l _ Hh Hb). cbn [bind ret].
  rewrite (mapM_top_10_entry_flat _ _ Hwf10 Hb). cbn [bind ret].
  reflexivity.
Qed.

(** ** Transactions *)

Lemma filter_length_le {A} (f : A -> bool) (l : list A) :
  (length (List.filter f l) <= length l)%nat.
Proof.
  induction l as [| a l IH]; simpl; [lia | ]. destruct (f a); simpl; lia.
Qed.

(** X9. The transaction tool counts the whole list in
    [recent_tx_count], counts at most five large transactions, and
    gives its two recommendations exactly when more than three are
    large. *)
Theorem transaction_history_counts addr limit net log resp d txs :
  net (helius_transactions_request addr limit) = inr resp ->
  status_code resp = 200 ->
  json_body resp = Some (JObj d) ->
  get_or "transactions" d (JList []) = JList txs ->
  forallb has_amount (firstn 5 txs) = true ->
  exists v large,
    get_token_transaction_history addr limit net log
      = (log ++ [helius_transactions_request addr limit], inr v) /\
    field2 "transaction_analysis" "recent_tx_count" v = Some (JInt (Z.of_nat (length txs))) /\
    field2 "transaction_analysis" "large_transactions" v = Some (JInt large) /\
    0 <= large <= 5 /\
    field "recommendations" v =
      Some (JList (if 3 <? large
                   then [JStr "Monitor large transfers for potential dump activity";
                         JStr "Watch for sudden spikes in transaction volume"]
                   else [])).
Proof.
  intros Hnet Hstatus Hbody Htxs Hwf.
  destruct (foldM_tx_step (firstn 5 txs) (TxAcc 0 []) Hwf) as (notes & Hfold & _).
  unfold get_token_transaction_history, try_except, io_bind, client_get, lift.
  rewrite Hnet, Hstatus. simpl (200 =? 200). cbv iota.
  unfold response_json. rewrite Hbody. cbn [bind ret py_get]. rewrite Htxs.
  cbn [bind ret py_slice py_iter py_len]. rewrite Hfold. cbn [bind ret].
  cbn [large_tx_count suspicious_patterns app]. rewrite Z.add_0_l.
  eexists _, _. split; [reflexivity | ]. split; [reflexivity | ].
  split; [reflexivity | ]. split.
  - pose proof (filter_length_le is_large (firstn 5 txs)) as Hle.
    pose proof (firstn_le_length 5 txs) as H5. lia.
  - cbn [field assoc String.eqb Ascii.eqb Bool.eqb].
    now destruct (3 <? Z.of_nat (length (List.filter is_large (firstn 5 txs)))).
Qed.

(** X10. Records after the fifth are counted and never read: two
    answers with the same first five transactions and the same number
    of transactions give the same result, whatever the later records
    are. *)
Theorem transaction_history_reads_five addr limit net net' log resp resp' d d' txs txs' :
  net (helius_transactions_request addr limit) = inr resp ->
  net' (helius_transactions_request addr limit) = inr resp' ->
  status_code resp = 200 -> status_code resp' = 200 ->
  json_body resp = Some (JObj d) -> json_body resp' = Some (JObj d') ->
  get_or "transactions" d (JList []) = JList txs ->
  get_or "transactions" d' (JList []) = JList txs' ->
  firstn 5 txs = firstn 5 txs' ->
  length txs = length txs' ->
  get_token_transaction_history addr limit net log
  = get_token_transaction_history addr limit net' log.
Proof.
  intros Hnet Hnet' Hs Hs' Hb Hb' Ht Ht' Hfive Hlen.
  unfold get_token_transaction_history, try_except, io_bind, client_get, lift.
  rewrite Hnet, Hnet', Hs, Hs'. simpl (200 =? 200). cbv iota.
  unfold response_json. rewrite Hb, Hb'. cbn [bind ret py_get]. rewrite Ht, Ht'.
  cbn [bind ret py_slice py_iter py_len]. rewrite Hfive, Hlen. reflexivity.
Qed.

(** ** Trending and prices *)

(** X11. Pairs after the tenth are never read: two answers with the
    same first ten pairs give the same trending result. *)
Theorem trending_reads_ten net net' log resp resp' d d' ps ps' :
  net trending_request = inr resp ->
  net' trending_request = inr resp' ->
  status_code resp = 200 -> status_code resp' = 200 ->
  json_body resp = Some (JObj d) -> json_body resp' = Some (JObj d') ->
  get_or "pairs" d JNull = JList ps ->
  get_or "pairs" d' JNull = JList ps' ->
  firstn 10 ps = firstn 10 ps' ->
  get_trending_tokens net log = get_trending_tokens net' log.
Proof.
  intros Hnet Hnet' Hs Hs' Hb Hb' Hp Hp' Hten.
  assert (Hd : get_or "pairs" d (JList []) = JList ps).
  { revert Hp. unfold get_or. destruct (assoc "pairs" d); [easy | discriminate]. }
  assert (Hd' : get_or "pairs" d' (JList []) = JList ps').
  { revert Hp'. unfold get_or. destruct (assoc "pairs" d'); [easy | discriminate]. }
  unfold get_trending_tokens, try_except, io_bind, client_get, lift.
  rewrite Hnet, Hnet', Hs, Hs'. simpl (200 =? 200). cbv iota.
  unfold response_json. rewrite Hb, Hb'. cbn [bind ret].
  unfold top_pairs. cbn [bind ret py_get]. rewrite Hp, Hp', Hd, Hd'.
  destruct ps as [| p ps], ps' as [| p' ps']; try discriminate; [reflexivity | ].
  cbn [truthy bind ret py_slice py_iter]. rewrite Hten. reflexivity.
Qed.

(** X12. The trending list is all or nothing: when one of the first
    ten pairs is ill formed the result is an error result, not a
    shorter list. *)
Theorem trending_is_all_or_nothing net log resp d ps :
  net trending_request = inr resp ->
  status_code resp = 200 ->
  json_body resp = Some (JObj d) ->
  get_or "pairs" d JNull = JList ps ->
  forallb (fun pair => succeeds (trending_entry pair)) (firstn 10 ps) = false ->
  exists e,
    get_trending_tokens net log =
    (log ++ [trending_request],
     inr (JObj [("status", JStr "error"); ("message", JStr (exn_msg e))])).
Proof.
  intros Hnet Hstatus Hbody Hpairs Hbad.
  destruct (mapM_fails _ _ Hbad) as [e He].
  assert (Hd : get_or "pairs" d (JList []) = JList ps).
  { revert Hpairs. unfold get_or. destruct (assoc "pairs" d); [easy | discriminate]. }
  exists e.
  unfold get_trending_tokens, try_except, io_bind, client_get, lift.
  rewrite Hnet, Hstatus. simpl (200 =? 200). cbv iota.
  unfold response_json. rewrite Hbody. cbn [bind ret].
  unfold top_pairs. cbn [bind ret py_get]. rewrite Hpairs, Hd.
  destruct ps as [| p ps]; [discriminate | ].
  cbn [truthy bind ret py_slice py_iter]. rewrite He. reflexivity.
Qed.






End MoreToolFacts.

(** * Further properties of the configuration *)

(** X14. A [GOOGLE_API_KEY] of the process environment decides alone:
    it is the key that is loaded, whatever the [.env] file holds, and
    when it is empty loading fails even if the file has a key. *)
Theorem process_environment_wins (environ dotenv : gmap string string) (key : string) :
  environ !! "GOOGLE_API_KEY" = Some key ->
  loaded_key (load_config environ dotenv) = (if String.eqb key "" then None else Some key).
Proof.
  intros Hkey. unfold load_config, getenv, load_dotenv.
  rewrite (lookup_union_Some_l environ dotenv _ _ Hkey). cbn [unset].
  now destruct (String.eqb key "").
Qed.

(** * Properties of the agent *)

Section AgentValueFacts.

Context `{Runtime}.

Lemma first_answer_passes (skipped rest : list chat_message) :
  forallb passed_over skipped = true ->
  first_answer (skipped ++ rest) = first_answer rest.
Proof.
  induction skipped as [| m skipped IH]; simpl; [reflexivity | ].
  intros [Hm Hs]%andb_prop. destruct m as [c | ]; simpl in Hm.
  - destruct (content_truthy c); [discriminate | now apply IH].
  - now apply IH.
Qed.

Lemma forallb_rev {A} (f : A -> bool) (l : list A) :
  forallb f (rev l) = forallb f l.
Proof.
  induction l as [| a l IH]; simpl; [reflexivity | ].
  rewrite forallb_app, IH. simpl. rewrite andb_true_r. apply andb_comm.
Qed.

Lemma extract_response_stops_at before c after repr :
  content_truthy c = true ->
  forallb passed_over after = true ->
  extract_response (AgentResult (Some (before ++ Message c :: after)) repr) = answer_of c.
Proof.
  intros Hc Hafter. unfold extract_response. cbn [messages].
  rewrite rev_app_distr. simpl. rewrite <- app_assoc.
  rewrite first_answer_passes by now rewrite forallb_rev.
  simpl. rewrite Hc. now destruct c.
Qed.

(** X16. [extract_response] returns the text of the last message that
    has a content: messages after it with an empty content, or with
    no content at all, are passed over and the messages before it are
    not looked at. *)
Theorem extract_response_last_text before s after repr :
  s <> "" ->
  forallb passed_over after = true ->
  extract_response (AgentResult (Some (before ++ Message (ContentStr s) :: after)) repr)
  = inr s.
Proof.
  intros Hs Hafter. rewrite extract_response_stops_at; [reflexivity | | exact Hafter].
  simpl. now destruct (String.eqb_spec s "").
Qed.

(** X17. When there is no [messages] key, or no message has a content,
    [extract_response] falls back on [str(result)]. *)
Theorem extract_response_fallback msgs repr :
  forallb passed_over msgs = true ->
  extract_response (AgentResult (Some msgs) repr) = inr repr /\
  extract_response (AgentResult None repr) = inr repr.
Proof.
  intros Hmsgs. split; [ | reflexivity ]. unfold extract_response. cbn [messages].
  rewrite <- (app_nil_r (rev msgs)).
  rewrite first_answer_passes by now rewrite forallb_rev.
  reflexivity.
Qed.

Lemma str_items_text (blocks : list block) (i : nat) :
  forallb text_ok blocks = true ->
  str_items i (text_parts blocks) = inr (flat_map block_text blocks).
Proof.
  revert i. induction blocks as [| b blocks IH]; intros i; simpl; [reflexivity | ].
  intros [Hb Hbs]%andb_prop. destruct b as [s | kv]; simpl.
  - rewrite (IH _ Hbs). reflexivity.
  - simpl in Hb. destruct (assoc "text" kv) as [[] | ]; try discriminate; simpl.
    + rewrite (IH _ Hbs). reflexivity.
    + now apply IH.
Qed.

(** X18. For a content that is a list of blocks the answer is the
    texts of its blocks joined by newlines; a dict block without text
    adds nothing, so a list with no text at all gives the empty
    string even when an earlier message has text. *)
Theorem extract_response_joins_text before blocks after repr :
  blocks <> [] ->
  forallb text_ok blocks = true ->
  forallb passed_over after = true ->
  extract_response
    (AgentResult (Some (before ++ Message (ContentList blocks) :: after)) repr)
  = inr (String.concat newline (flat_map block_text blocks)).
Proof.
  intros Hne Hok Hafter.
  rewrite extract_response_stops_at;
    [ | destruct blocks; [contradiction | reflexivity] | exact Hafter ].
  unfold answer_of, py_join. rewrite (str_items_text _ _ Hok). reflexivity.
Qed.

End AgentValueFacts.


Section AgentFacts.

Context `{Runtime}.

Lemma initialize_first (w : world) :
  _initialized w = false ->
  initialize w =
  match build_agent cfg get_tools with
  | inr h =>
      (World (Some h) (Some get_tools) true
             (stdout w ++ loading_lines ++ ["✅ DeFi Risk Agent initialized and ready!"])
             (asked w),
       inr tt)
  | inl e =>
      (World (agent w) (Some get_tools) false (stdout w ++ loading_lines) (asked w),
       inl e)
  end.
Proof.
  intros Hi. unfold initialize. rewrite Hi.
  unfold act_bind, print, set_tools, set_agent, set_initialized, act_lift.
  cbn [agent tools _initialized stdout asked].
  destruct (build_agent cfg get_tools) as [e | h];
    unfold loading_lines; rewrite <- ?app_assoc, ?Hi; reflexivity.
Qed.

Lemma initialize_again (w : world) :
  _initialized w = true -> initialize w = (w, inr tt).
Proof. intros Hi. unfold initialize. now rewrite Hi. Qed.

Lemma loaded_eleven :
  "✅ Loaded " +:+ str_Z (Z.of_nat (length get_tools)) +:+ " DeFi analysis tools"
  = "✅ Loaded 11 DeFi analysis tools".
Proof. reflexivity. Qed.

Lemma initialize_ready (w : world) : ready w -> ready (fst (initialize w)).
Proof.
  intros Hw. destruct (_initialized w) eqn:Hi.
  - now rewrite initialize_again.
  - rewrite (initialize_first w Hi).
    destruct (build_agent cfg get_tools) as [e | h]; unfold ready; cbn [fst agent tools _initialized].
    + intros Hinit. discriminate Hinit.
    + intros _. split; [eauto | reflexivity].
Qed.

Lemma ensure_initialized_ready (w : world) : ready w -> ready (fst (ensure_initialized w)).
Proof.
  intros Hw. unfold ensure_initialized.
  destruct (_initialized w); [exact Hw | now apply initialize_ready].
Qed.

Lemma invoke_agent_ready msgs (w : world) : ready w -> ready (fst (invoke_agent msgs w)).
Proof.
  intros Hw. unfold invoke_agent. destruct (agent w) as [h | ] eqn:Ha; [ | exact Hw].
  intros Hinit. destruct (Hw Hinit) as [_ Ht].
  cbn [fst agent tools]. split; [eauto | exact Ht].
Qed.

Lemma act_bind_ready {A B} (c : act A) (k : A -> act B) (w : world) :
  ready (fst (c w)) -> (forall a w', ready w' -> ready (fst (k a w'))) ->
  ready (fst (act_bind c k w)).
Proof.
  intros Hc Hk. unfold act_bind. destruct (c w) as [w' [e | a]]; [exact Hc | ].
  now apply Hk.
Qed.

(** X19. Every method of the agent keeps the object ready: whenever
    [_initialized] is set the agent is there and the tools are the
    eleven of the registry. *)
Theorem agent_methods_keep_ready (w : world) (text : string) :
  ready w ->
  ready (fst (initialize w)) /\
  ready (fst (chat text w)) /\
  ready (fst (analyze text w)) /\
  ready (fst (quick_lookup text w)) /\
  ready (fst (check_holders text w)) /\
  ready (fst (agent_get_trending_tokens w)) /\
  ready (fst (close w)).
Proof.
  intros Hw.
  assert (Hchat : forall m, ready (fst (chat m w))).
  { intros m. unfold chat. apply act_bind_ready; [now apply ensure_initialized_ready | ].
    intros _ w' Hw'. now apply invoke_agent_ready. }
  split; [now apply initialize_ready | ].
  split; [apply Hchat | ].
  split.
  { unfold analyze. apply act_bind_ready; [now apply ensure_initialized_ready | ].
    intros _ w' Hw'. apply act_bind_ready; [exact Hw' | ].
    intros _ w'' Hw''. now apply invoke_agent_ready. }
  split; [apply Hchat | ]. split; [apply Hchat | ]. split; [apply Hchat | ].
  intros Hinit. discriminate Hinit.
Qed.


Lemma chat_first (w : world) (text : string) h :
  _initialized w = false ->
  build_agent cfg get_tools = inr h ->
  chat text w =
    (World (Some h) (Some get_tools) true
           (stdout w ++ loading_lines ++ ["✅ DeFi Risk Agent initialized and ready!"])
           (asked w ++ [[("user", text)]]),
     ainvoke h [("user", text)]).
Proof.
  intros Hi Hbuild. unfold chat, act_bind, ensure_initialized.
  rewrite Hi, (initialize_first w Hi), Hbuild. reflexivity.
Qed.

Lemma chat_again (w : world) (text : string) h :
  _initialized w = true ->
  agent w = Some h ->
  chat text w =
    (World (Some h) (tools w) true (stdout w) (asked w ++ [[("user", text)]]),
     ainvoke h [("user", text)]).
Proof.
  intros Hi Hh. destruct w as [a ts i out qs]. cbn [agent _initialized] in Hi, Hh.
  subst a i. reflexivity.
Qed.

(** X21. Two chats on a new object build the agent once: the second
    prints nothing and both messages reach the same agent, in order. *)
Theorem chat_builds_once (out : list string) (m1 m2 : string) h :
  build_agent cfg get_tools = inr h ->
  let w1 := fst (chat m1 (new_agent out)) in
  chat m2 w1 =
    (World (Some h) (Some get_tools) true (stdout w1)
           [[("user", m1)]; [("user", m2)]],
     ainvoke h [("user", m2)]) /\
  stdout w1 =
    out ++ ["🔄 Initializing DeFi Risk Agent...";
            "✅ Loaded 11 DeFi analysis tools";
            "📦 Tools: " +:+ tool_names;
            "✅ DeFi Risk Agent initialized and ready!"].
Proof.
  intros Hbuild. cbv zeta.
  rewrite (chat_first (new_agent out) m1 h eq_refl Hbuild). cbn [fst].
  rewrite (chat_again (World (Some h) (Some get_tools) true _ _) m2 h eq_refl eq_refl).
  split; [reflexivity | ].
  cbn [stdout new_agent]. unfold loading_lines. rewrite loaded_eleven. reflexivity.
Qed.

End AgentFacts.

(** * Properties of the interactive loop *)

Section InteractiveFacts.

Context `{Runtime}.

Lemma repl_forwards (lines : list string) (w : world) h :
  agent w = Some h ->
  _initialized w = true ->
  (forall msgs, exists res ans,
      ainvoke h msgs = inr res /\ extract_response res = inr ans) ->
  exists w',
    repl (map Line lines) w = (w', inr tt) /\
    agent w' = Some h /\ _initialized w' = true /\ tools w' = tools w /\
    asked w' = asked w ++ map (fun u => [("user", u)]) (forwarded lines).
Proof.
  intros Hh Hi Hrun. revert w Hh Hi.
  induction lines as [| s lines IH]; intros w Hh Hi.
  - eexists. split; [reflexivity | ].
    cbn [agent tools _initialized asked forwarded map List.filter].
    rewrite app_nil_r. repeat split; assumption.
  - cbn [map repl]. unfold forwarded. cbn [map List.filter].
    unfold act_bind at 1. cbn [print].
    destruct (String.eqb (strip s) "") eqn:Hblank; cbn [negb].
    + destruct (IH (World (agent w) (tools w) (_initialized w)
                          (stdout w ++ [prompt]) (asked w)) Hh Hi)
        as (w' & Hrepl & Ha & Hi' & Ht & Hasked).
      exists w'. split; [exact Hrepl | ]. repeat split; assumption.
    + destruct (Hrun [("user", strip s)]) as (res & ans & Hres & Hans).
      unfold act_bind at 1. cbn [print].
      unfold act_bind at 1.
      rewrite (chat_again (World (agent w) (tools w) (_initialized w) _ _)
                 (strip s) h Hi Hh), Hres.
      unfold act_bind at 1. unfold act_lift at 1. rewrite Hans.
      unfold act_bind at 1. cbn [print agent tools _initialized stdout asked].
      match goal with
      | |- context [repl (map Line lines) ?w0] =>
          destruct (IH w0 eq_refl eq_refl) as (w' & Hrepl & Ha & Hi' & Ht & Hasked)
      end.
      exists w'. split; [exact Hrepl | ]. repeat split; try assumption.
      rewrite Hasked. cbn [asked map]. rewrite <- app_assoc. reflexivity.
Qed.

Lemma try_block_built (inputs : list console) (out : list string) h :
  build_agent cfg get_tools = inr h ->
  act_bind initialize (fun _ => act_bind (print HELP_TEXT) (fun _ => repl inputs))
    (new_agent out)
  = repl inputs
      (World (Some h) (Some get_tools) true
             ((out ++ loading_lines ++ ["✅ DeFi Risk Agent initialized and ready!"])
              ++ [HELP_TEXT])
             []).
Proof.
  intros Hbuild. unfold act_bind at 1.
  rewrite (initialize_first (new_agent out) eq_refl), Hbuild. reflexivity.
Qed.

(** X22. The loop interprets no command: every line that is not blank
    is stripped and sent to the agent as it is, the words [quit],
    [exit] and [help] included, and only the end of the input ends
    the loop. *)
Theorem interactive_mode_forwards_every_line (lines : list string) (out : list string) h :
  build_agent cfg get_tools = inr h ->
  (forall msgs, exists res ans,
      ainvoke h msgs = inr res /\ extract_response res = inr ans) ->
  snd (interactive_mode (map Line lines) out) = inr tt /\
  asked (fst (interactive_mode (map Line lines) out))
    = map (fun u => [("user", u)]) (forwarded lines).
Proof.
  intros Hbuild Hrun. unfold interactive_mode.
  rewrite (try_block_built _ out h Hbuild).
  match goal with
  | |- context [repl (map Line lines) ?w0] =>
      destruct (repl_forwards lines w0 h eq_refl eq_refl Hrun)
        as (w' & Hrepl & _ & _ & _ & Hasked)
  end.
  rewrite Hrepl. split; [reflexivity | exact Hasked].
Qed.

Lemma repl_raises (s : string) (rest : list console) (w : world) h e :
  _initialized w = true -> agent w = Some h ->
  strip s <> "" ->
  ainvoke h [("user", strip s)] = inl e ->
  repl (Line s :: rest) w
  = (World (Some h) (tools w) true
       ((stdout w ++ [prompt]) ++ [newline +:+ "💭 Processing your question..."])
       (asked w ++ [[("user", strip s)]]),
     inl e).
Proof.
  intros Hi Hh Hs He. cbn [repl].
  unfold act_bind at 1. cbn [print agent tools _initialized stdout asked].
  destruct (String.eqb_spec (strip s) ""); [contradiction | ].
  unfold act_bind at 1. cbn [print agent tools _initialized stdout asked].
  unfold act_bind at 1.
  rewrite (chat_again (World (agent w) (tools w) (_initialized w) _ _) (strip s) h Hi Hh), He.
  reflexivity.
Qed.

(** X24. An exception of the agent ends the loop at once: it is
    printed, the agent is closed, the exception leaves the function
    and the lines that follow are not read. *)
Theorem interactive_mode_reraises (s : string) (rest : list console) out h e :
  build_agent cfg get_tools = inr h ->
  strip s <> "" ->
  ainvoke h [("user", strip s)] = inl e ->
  let w := fst (interactive_mode (Line s :: rest) out) in
  snd (interactive_mode (Line s :: rest) out) = inl e /\
  asked w = [[("user", strip s)]] /\
  exists printed,
    stdout w = printed ++ [newline +:+ "❌ Error: " +:+ str_exn e; "👋 Agent closed"].
Proof.
  intros Hbuild Hs He. cbv zeta. unfold interactive_mode.
  rewrite (try_block_built _ out h Hbuild).
  rewrite (repl_raises s rest (World (Some h) (Some get_tools) true _ _) h e eq_refl eq_refl Hs He).
  split; [reflexivity | ]. split; [reflexivity | ].
  eexists. cbn [finish fst]. unfold close, act_bind, set_agent, set_tools, set_initialized, print.
  cbn [fst agent tools _initialized stdout asked].
  rewrite <- app_assoc. reflexivity.
Qed.

End InteractiveFacts.

(** * Properties of [execute] *)

Module ExecutorFacts.

Import Executor.

(** X25. [execute] never completes.  Without a message it raises
    "No message provided" and leaves the queue as it is; with one it
    raises the [AttributeError] of the missing [stream], after putting
    on the queue the task it creates when the context has none, and
    nothing else. *)
Theorem execute_never_completes new_task ctx queue :
  execute new_task ctx queue =
  match context_message ctx with
  | None => (queue, inl (Exn PlainException "No message provided"))
  | Some m =>
      (queue ++ match context_task ctx with
                | Some _ => []
                | None => [EnqueueTask (new_task m)]
                end,
       inl (Exn AttributeError "'DeFiRiskAgent' object has no attribute 'stream'"))
  end.
Proof.
  unfold execute, execute_with, DeFiRiskAgent_stream.
  destruct (context_message ctx) as [m | ]; [ | reflexivity ].
  destruct (context_task ctx) as [t | ]; [ | reflexivity ].
  now rewrite app_nil_r.
Qed.

(** X26. With an agent that streams, a completed event does not end
    the loop: its artifact and its final status are published and
    the events that follow are published after them. *)
Theorem execute_publishes_past_completion stream new_task ctx queue t m
    before e after failure :
  context_message ctx = Some m ->
  context_task ctx = Some t ->
  is_task_complete e = true ->
  stream (get_user_input ctx) (task_context_id t) = (before ++ e :: after, failure) ->
  fst (execute_with (Some stream) new_task ctx queue) =
    queue ++ flat_map (publish t) before
          ++ [ArtifactUpdate false (task_context_id t) (task_id t) true
                "current_result" "Result of request to agent." (content e);
              StatusUpdate completed None true (task_context_id t) (task_id t)]
          ++ flat_map (publish t) after.
Proof.
  intros Hm Ht He Hs. unfold execute_with. rewrite Hm, Ht, Hs. cbn [fst].
  rewrite flat_map_app. cbn [flat_map]. unfold publish at 2. rewrite He.
  reflexivity.
Qed.

End ExecutorFacts.


(** * Properties of the schema patch *)

Section PatchFacts.

Context `{PyFloat}.

Variable create_model :
  string -> list (string * (annotation * model_field)) -> py args_schema.

Lemma assoc_app_Some k (l l' : list (string * json)) v :
  assoc k l = Some v -> assoc k (l ++ l') = Some v.
Proof.
  induction l as [| [k' v'] l IH]; simpl; [discriminate | ].
  destruct (String.eqb k k'); [easy | exact IH].
Qed.

Lemma assoc_app_None k (l l' : list (string * json)) :
  assoc k l = None -> assoc k (l ++ l') = assoc k l'.
Proof.
  induction l as [| [k' v'] l IH]; simpl; [reflexivity | ].
  destruct (String.eqb k k'); [discriminate | exact IH].
Qed.

Lemma assoc_set_same k v (kv : list (string * json)) :
  assoc k (assoc_set k v kv) = match assoc k kv with Some _ => Some v | None => None end.
Proof.
  induction kv as [| [k' v'] kv IH]; simpl; [reflexivity | ].
  destruct (String.eqb k k') eqn:Hk; simpl; rewrite Hk; [reflexivity | exact IH].
Qed.

Lemma assoc_set_other k k' v (kv : list (string * json)) :
  k <> k' -> assoc k' (assoc_set k v kv) = assoc k' kv.
Proof.
  intros Hne. induction kv as [| [k0 v0] kv IH]; simpl; [reflexivity | ].
  destruct (String.eqb_spec k k0) as [-> | Hk0]; simpl.
  - destruct (String.eqb_spec k' k0) as [-> | _]; [contradiction | reflexivity].
  - destruct (String.eqb k' k0); [reflexivity | exact IH].
Qed.

Lemma assoc_set_id k v (kv : list (string * json)) :
  assoc k kv = Some v -> assoc_set k v kv = kv.
Proof.
  induction kv as [| [k' v'] kv IH]; simpl; [reflexivity | ].
  destruct (String.eqb k k'); [intros [= ->]; reflexivity | ].
  intros Hk. now rewrite IH.
Qed.

Lemma assoc_set_absent k v (kv : list (string * json)) :
  assoc k kv = None -> assoc_set k v kv = kv.
Proof.
  induction kv as [| [k' v'] kv IH]; simpl; [reflexivity | ].
  destruct (String.eqb k k'); [discriminate | ].
  intros Hk. now rewrite IH.
Qed.

Lemma patch_field_def_idem (fd : json) :
  patch_field_def (patch_field_def fd) = patch_field_def fd.
Proof.
  destruct fd as [| | | | | | kv]; try reflexivity.
  cbn [patch_field_def].
  destruct (eq_str (get_or "type" kv JNull) "array") eqn:Harr.
  - destruct (assoc "items" kv) as [it | ] eqn:Hit.
    + cbn [patch_field_def]. now rewrite Harr, Hit.
    + cbn [patch_field_def]. unfold get_or in *.
      destruct (assoc "type" kv) as [ty | ] eqn:Hty; [ | discriminate Harr].
      rewrite (assoc_app_Some _ _ _ _ Hty), Harr.
      rewrite (assoc_app_None _ _ _ Hit). reflexivity.
  - cbn [patch_field_def]. now rewrite Harr.
Qed.

Lemma patch_field_def_has_items (fd : list (string * json)) fd' :
  patch_field_def (JObj fd) = JObj fd' ->
  eq_str (get_or "type" fd' JNull) "array"
  && match assoc "items" fd' with None => true | Some _ => false end = false.
Proof.
  unfold patch_field_def.
  destruct (eq_str (get_or "type" fd JNull) "array") eqn:Harr.
  - destruct (assoc "items" fd) as [it | ] eqn:Hit; intros [= <-].
    + rewrite Hit. apply andb_false_r.
    + rewrite (assoc_app_None _ _ _ Hit). simpl. apply andb_false_r.
  - intros [= <-]. now rewrite Harr.
Qed.

Lemma patch_field_def_obj (v : json) fd' :
  patch_field_def v = JObj fd' -> exists fd, v = JObj fd.
Proof. destruct v; simpl; try discriminate. eauto. Qed.

Lemma patch_property_idem name (props props' : json) :
  patch_property name props = inr props' -> patch_property name props' = inr props'.
Proof.
  destruct props as [| | | | s | l | pkv]; simpl; try discriminate.
  - destruct (contains name s) eqn:Hc; [discriminate | ]. intros [= <-]. simpl. now rewrite Hc.
  - destruct (existsb _ l) eqn:Hc; [discriminate | ]. intros [= <-]. simpl. now rewrite Hc.
  - destruct (assoc name pkv) as [fd | ] eqn:Hfd; intros [= <-]; simpl.
    + rewrite assoc_set_same, Hfd, patch_field_def_idem.
      rewrite (assoc_set_id name (patch_field_def fd)
                 (assoc_set name (patch_field_def fd) pkv));
        [reflexivity | now rewrite assoc_set_same, Hfd].
    + now rewrite Hfd.
Qed.

Lemma patch_property_other name name' (props props' : json) :
  name <> name' ->
  patch_property name' props = inr props ->
  patch_property name props = inr props' ->
  patch_property name' props' = inr props'.
Proof.
  intros Hne. destruct props as [| | | | s | l | pkv]; simpl; try discriminate.
  - destruct (contains name' s) eqn:Hc'; [discriminate | ]. intros _.
    destruct (contains name s); [discriminate | ]. intros [= <-]. simpl. now rewrite Hc'.
  - intros Hfix Hrun.
    destruct (existsb (fun v => eq_str v name') l) eqn:Hc'; [discriminate Hfix | ].
    destruct (existsb (fun v => eq_str v name) l); [discriminate Hrun | ].
    inversion Hrun. subst props'. simpl. now rewrite Hc'.
  - intros Hfix Hrun. unfold ret in *.
    destruct (assoc name pkv) as [fd | ] eqn:Hfd; inversion Hrun; subst props'; simpl.
    + rewrite assoc_set_other by exact Hne.
      destruct (assoc name' pkv) as [fd' | ] eqn:Hfd'; [ | reflexivity ].
      assert (Hpf : patch_field_def fd' = fd').
      { assert (Hset : assoc_set name' (patch_field_def fd') pkv = pkv) by congruence.
        apply (f_equal (assoc name')) in Hset.
        rewrite assoc_set_same, Hfd' in Hset. congruence. }
      rewrite Hpf.
      rewrite (assoc_set_id name' fd' (assoc_set name (patch_field_def fd) pkv));
        [reflexivity | ].
      now rewrite assoc_set_other by exact Hne.
    + exact Hfix.
Qed.

Lemma patch_dict_schema_idem (kv kv' : list (string * json)) :
  patch_dict_schema kv = inr kv' -> patch_dict_schema kv' = inr kv'.
Proof.
  unfold patch_dict_schema.
  destruct (patch_property "order_desc" (get_or "properties" kv (JObj []))) as [e | p1] eqn:H1;
    [discriminate | ].
  cbn [bind].
  destruct (patch_property "order_asc" p1) as [e | p2] eqn:H2; [discriminate | ].
  cbn [bind ret]. intros [= <-].
  assert (Hasc : patch_property "order_asc" p2 = inr p2) by exact (patch_property_idem _ _ _ H2).
  assert (Hdesc : patch_property "order_desc" p2 = inr p2).
  { apply (patch_property_other "order_asc" "order_desc" p1 p2); [discriminate | | exact H2].
    exact (patch_property_idem _ _ _ H1). }
  unfold get_or at 1. rewrite assoc_set_same.
  destruct (assoc "properties" kv) as [p | ] eqn:Hp.
  - rewrite Hdesc. cbn [bind]. rewrite Hasc. cbn [bind ret].
    rewrite (assoc_set_id "properties" p2 (assoc_set "properties" p2 kv));
      [reflexivity | now rewrite assoc_set_same, Hp].
  - unfold get_or in H1. rewrite Hp in H1. simpl in H1. inversion H1. subst p1.
    simpl in H2. inversion H2. subst p2. simpl.
    now rewrite !(assoc_set_absent _ _ _ Hp).
Qed.

Lemma patch_tool_idem (t t' : structured_tool) out :
  keeps_model t = true ->
  patch_tool create_model t = (out, inr t') ->
  patch_tool create_model t' = ([], inr t') /\ keeps_model t' = true.
Proof.
  unfold keeps_model, patch_tool. destruct t as [n s]. cbn [st_args_schema st_name].
  destruct s as [| name fields | kv | ].
  - intros _ [= <- <-]. split; reflexivity.
  - intros Hk. apply negb_true_iff in Hk. rewrite Hk. intros [= <- <-]. cbn.
    rewrite Hk. split; reflexivity.
  - intros _. destruct kv as [| item kv]; [intros [= <- <-]; split; reflexivity | ].
    destruct (patch_dict_schema (item :: kv)) as [e | kv'] eqn:Hkv; [discriminate | ].
    cbn [bind ret]. intros [= <- <-]. cbn [st_args_schema st_name].
    split; [ | reflexivity ].
    pose proof (patch_dict_schema_idem _ _ Hkv) as Hidem.
    destruct kv' as [| item' kv']; [reflexivity | ]. now rewrite Hidem.
  - intros _ [= <- <-]. split; reflexivity.
Qed.

(** X27. Patching is idempotent on tools whose schema is not a model
    with an order field: patching the patched list changes nothing
    and prints nothing. *)
Theorem patch_is_idempotent (tools tools' : list structured_tool) :
  forallb keeps_model tools = true ->
  snd (_patch_tools_for_gemini create_model tools) = inr tools' ->
  _patch_tools_for_gemini create_model tools' = ([], inr tools').
Proof.
  revert tools'. induction tools as [| t tools IH]; intros tools'; simpl.
  - intros _ [= <-]. reflexivity.
  - intros [Ht Hts]%andb_prop.
    destruct (patch_tool create_model t) as [out [e | t']] eqn:Hpt; [discriminate | ].
    destruct (_patch_tools_for_gemini create_model tools) as [out' [e | ts]] eqn:Hp; [discriminate | ].
    cbn. intros [= <-].
    destruct (patch_tool_idem t t' out Ht Hpt) as [Ht' _].
    simpl. rewrite Ht'. rewrite (IH ts Hts eq_refl). reflexivity.
Qed.

Lemma patch_tool_name (t t' : structured_tool) :
  snd (patch_tool create_model t) = inr t' -> st_name t' = st_name t.
Proof.
  unfold patch_tool. destruct t as [n s]. cbn [st_args_schema st_name].
  destruct s as [| name fields | kv | ]; cbn.
  - now intros [= <-].
  - destruct (existsb _ fields); [ | now intros [= <-] ].
    destruct (create_model name (new_fields fields)); now intros [= <-].
  - destruct kv as [| item kv]; [now intros [= <-] | ].
    destruct (patch_dict_schema (item :: kv)); [discriminate | ]. now intros [= <-].
  - now intros [= <-].
Qed.

(** X28. When patching returns, it returns the same tools in the same
    order: the names are unchanged. *)
Theorem patch_keeps_names (tools tools' : list structured_tool) :
  snd (_patch_tools_for_gemini create_model tools) = inr tools' ->
  map st_name tools' = map st_name tools.
Proof.
  revert tools'. induction tools as [| t tools IH]; intros tools'; simpl.
  - now intros [= <-].
  - destruct (patch_tool create_model t) as [out [e | t']] eqn:Hpt; [discriminate | ].
    destruct (_patch_tools_for_gemini create_model tools) as [out' [e | ts]] eqn:Hp; [discriminate | ].
    cbn. intros [= <-]. simpl. f_equal.
    + apply patch_tool_name. now rewrite Hpt.
    + now apply IH.
Qed.

Lemma patch_property_has_items name (props props' : json) :
  patch_property name props = inr props' ->
  property_lacks_items props' name = false.
Proof.
  destruct props as [| | | | s | l | pkv]; simpl; try discriminate.
  - destruct (contains name s); [discriminate | ]. now intros [= <-].
  - destruct (existsb _ l); [discriminate | ]. now intros [= <-].
  - unfold ret. destruct (assoc name pkv) as [fd | ] eqn:Hfd; intros [= <-]; simpl.
    + rewrite assoc_set_same, Hfd.
      destruct (patch_field_def fd) as [| | | | | | fd'] eqn:Hpf; try reflexivity.
      destruct (patch_field_def_obj _ _ Hpf) as [fd0 ->].
      exact (patch_field_def_has_items _ _ Hpf).
    + now rewrite Hfd.
Qed.

Lemma patch_property_keeps_items name name' (props props' : json) :
  name <> name' ->
  property_lacks_items props name' = false ->
  patch_property name props = inr props' ->
  property_lacks_items props' name' = false.
Proof.
  intros Hne. destruct props as [| | | | s | l | pkv]; simpl; try discriminate.
  - intros _. destruct (contains name s); [discriminate | ]. now intros [= <-].
  - intros _. destruct (existsb _ l); [discriminate | ]. now intros [= <-].
  - intros Hok. unfold ret.
    destruct (assoc name pkv) as [fd | ] eqn:Hfd; intros [= <-]; simpl.
    + now rewrite assoc_set_other by exact Hne.
    + exact Hok.
Qed.

Lemma patch_dict_schema_has_items (kv kv' : list (string * json)) :
  patch_dict_schema kv = inr kv' ->
  lacks_items kv' "order_desc" = false /\ lacks_items kv' "order_asc" = false.
Proof.
  unfold patch_dict_schema.
  destruct (patch_property "order_desc" (get_or "properties" kv (JObj []))) as [e | p1] eqn:H1;
    [discriminate | ].
  cbn [bind].
  destruct (patch_property "order_asc" p1) as [e | p2] eqn:H2; [discriminate | ].
  cbn [bind ret]. intros [= <-].
  assert (Hp2 : property_lacks_items p2 "order_desc" = false /\
                property_lacks_items p2 "order_asc" = false).
  { split; [ | exact (patch_property_has_items _ _ _ H2) ].
    apply (patch_property_keeps_items "order_asc" "order_desc" p1 p2);
      [discriminate | exact (patch_property_has_items _ _ _ H1) | exact H2]. }
  unfold lacks_items, get_or. rewrite assoc_set_same.
  destruct (assoc "properties" kv); [exact Hp2 | split; reflexivity].
Qed.

Lemma patch_tool_has_items (t t' : structured_tool) :
  keeps_model t = true ->
  snd (patch_tool create_model t) = inr t' ->
  has_items t' = true.
Proof.
  unfold patch_tool, keeps_model, has_items. destruct t as [n s].
  cbn [st_args_schema st_name].
  destruct s as [| name fields | kv | ]; cbn [snd].
  - unfold ret. now intros _ [= <-].
  - intros Hk. destruct (existsb _ fields); [discriminate | ].
    unfold ret. now intros [= <-].
  - intros _. destruct kv as [| item kv]; [unfold ret; now intros [= <-] | ].
    cbn [snd]. destruct (patch_dict_schema (item :: kv)) as [e | kv'] eqn:Hkv;
      [discriminate | ].
    cbn [bind ret]. intros [= <-]. cbn [st_args_schema].
    destruct (patch_dict_schema_has_items _ _ Hkv) as [-> ->]. reflexivity.
  - unfold ret. now intros _ [= <-].
Qed.

(** X29. After patching, no dict schema is left with an [order_desc]
    or [order_asc] property that is an array without [items]. *)
Theorem patched_tools_have_items (tools tools' : list structured_tool) :
  forallb keeps_model tools = true ->
  snd (_patch_tools_for_gemini create_model tools) = inr tools' ->
  forallb has_items tools' = true.
Proof.
  revert tools'. induction tools as [| t tools IH]; intros tools'; simpl.
  - now intros _ [= <-].
  - intros [Ht Hts]%andb_prop.
    destruct (patch_tool create_model t) as [out [e | t']] eqn:Hpt; [discriminate | ].
    destruct (_patch_tools_for_gemini create_model tools) as [out' [e | ts]] eqn:Hp; [discriminate | ].
    cbn. intros [= <-]. simpl.
    rewrite (patch_tool_has_items t t' Ht) by now rewrite Hpt.
    now apply IH.
Qed.

End PatchFacts.

(** * The further properties on the sample payloads *)

Lemma tools_send_one_request_witness :
  In Fixture.details_tool get_tools /\
  exists reqs,
    fst (invoke Fixture.details_tool (default_input Sample.SOL)
           (Sample.answers Sample.listed_body) [trending_request])
      = [trending_request] ++ reqs /\
    (length reqs = 1%nat \/
     (tool_name Fixture.details_tool = "get_token_metadata_and_security" /\
      length reqs = 2%nat)).
Proof.
  assert (Hin : In Fixture.details_tool get_tools) by (simpl; tauto).
  split; [exact Hin | ].
  apply (tools_send_one_request Fixture.details_tool _ _ _ Hin).
Defined.

Lemma tools_report_network_failure_witness :
  In Fixture.security_tool get_tools /\
  (forall req, Sample.net_down req = inl (Exn HTTPXError "All connection attempts failed")) /\
  exists req v,
    invoke Fixture.security_tool (default_input Sample.SOL) Sample.net_down []
      = ([] ++ [req], inr v) /\
    field "status" v = Some (JStr "error") /\
    field "message" v = Some (JStr "All connection attempts failed").
Proof.
  assert (Hin : In Fixture.security_tool get_tools) by (simpl; tauto).
  split; [exact Hin | ]. split; [reflexivity | ].
  apply (tools_report_network_failure Fixture.security_tool _ Sample.net_down []
           (Exn HTTPXError "All connection attempts failed") Hin).
  reflexivity.
Defined.

Lemma tools_report_http_error_witness :
  In Fixture.rugcheck_tool get_tools /\
  500 <> 200 /\
  (forall req, exists r, Sample.net_500 req = inr r /\ status_code r = 500) /\
  exists log' v,
    invoke Fixture.rugcheck_tool (default_input Sample.SOL) Sample.net_500 []
      = (log', inr v) /\
    field "status" v = Some (JStr "not_found") /\
    field "message" v = Some (JStr "Token not found on Rugcheck").
Proof.
  assert (Hin : In Fixture.rugcheck_tool get_tools) by (simpl; tauto).
  assert (Hnet : forall req, exists r, Sample.net_500 req = inr r /\ status_code r = 500)
    by (intros req; eexists; split; reflexivity).
  split; [exact Hin | ]. split; [lia | ]. split; [exact Hnet | ].
  apply (tools_report_http_error Fixture.rugcheck_tool (default_input Sample.SOL)
           Sample.net_500 [] 500 Hin); [lia | exact Hnet].
Defined.

Lemma dexscreener_tools_not_found_witness :
  truthy (get_or "pairs" Fixture.no_pairs_body (JList []))
    = false /\
  get_token_holders Sample.SOL
    (Sample.answers (JObj Fixture.no_pairs_body)) []
  = ([] ++ [dexscreener_search Sample.SOL],
     inr (JObj [("status", JStr "not_found");
                ("message", JStr "Token not found on DexScreener")])).
Proof.
  split; [reflexivity | ].
  apply (dexscreener_tools_not_found Sample.SOL
           (Sample.answers (JObj Fixture.no_pairs_body)) []
           (Response 200 "" (Some (JObj Fixture.no_pairs_body)))
           Fixture.no_pairs_body);
    reflexivity.
Defined.

Lemma incident_check_matches_search_term_witness :
  lower (search_term Sample.SOL (Some "Mango Markets"))
    = lower (search_term "MangoB8Nhrs1vmBx2oSV3Q2uMhtzYFyJbF5R1GyZ2Gf" (Some "MANGO MARKETS")) /\
  exists v v',
    check_security_incidents Sample.SOL (Some "Mango Markets") Fixture.incident_page []
      = ([] ++ [slowmist_request], inr v) /\
    check_security_incidents "MangoB8Nhrs1vmBx2oSV3Q2uMhtzYFyJbF5R1GyZ2Gf"
      (Some "MANGO MARKETS") Fixture.incident_page []
      = ([] ++ [slowmist_request], inr v') /\
    field "status" v = field "status" v' /\
    field "risk_level" v = field "risk_level" v'.
Proof.
  split; [reflexivity | ].
  apply (incident_check_matches_search_term Sample.SOL
           "MangoB8Nhrs1vmBx2oSV3Q2uMhtzYFyJbF5R1GyZ2Gf"
           (Some "Mango Markets") (Some "MANGO MARKETS") Fixture.incident_page []).
  reflexivity.
Defined.

Lemma incident_check_empty_term_warns_witness :
  search_term "" (Some "") = "" /\
  exists v,
    check_security_incidents "" (Some "") Fixture.incident_page []
      = ([] ++ [slowmist_request], inr v) /\
    field "status" v = Some (JStr "warning") /\
    field "risk_level" v = Some (JStr "high").
Proof.
  split; [reflexivity | ].
  apply (incident_check_empty_term_warns "" (Some "") Fixture.incident_page []
           (Response 200 "2022-10-11 Mango Markets exploit, 116M USD lost" None));
    reflexivity.
Defined.

Lemma helius_malformed_holder_is_error_witness :
  forallb has_amount Fixture.malformed_holders = false /\
  exists e,
    get_token_holder_distribution_helius Sample.SOL
      (Sample.answers (JObj Fixture.malformed_body)) []
    = ([] ++ [helius_holders_request Sample.SOL],
       inr (JObj [("status", JStr "error"); ("message", JStr (exn_msg e));
                  ("note", JStr "Helius RPC may be temporarily unavailable")])).
Proof.
  split; [reflexivity | ].
  apply (helius_malformed_holder_is_error Sample.SOL
           (Sample.answers (JObj Fixture.malformed_body)) []
           (Response 200 "" (Some (JObj Fixture.malformed_body)))
           Fixture.malformed_body Fixture.malformed_holders);
    reflexivity.
Defined.

Lemma helius_non_positive_total_witness :
  forallb has_amount [Sample.holder "w1" 0; Sample.holder "w2" 0] = true /\
  f_ltb (f_of_Z 0) (f_sum (amounts_of [Sample.holder "w1" 0; Sample.holder "w2" 0]))
    = false /\
  field2 "holder_distribution" "top_10_concentration"
    (returned (get_token_holder_distribution_helius Sample.SOL)
              (Sample.answers (JObj Sample.empty_accounts_body)))
    = Some (JStr "0.00%").
Proof.
  split; [reflexivity | ]. split; [reflexivity | ].
  unfold returned, run.
  rewrite (helius_non_positive_total Sample.SOL
             (Sample.answers (JObj Sample.empty_accounts_body)) []
             (Response 200 "" (Some (JObj Sample.empty_accounts_body)))
             Sample.empty_accounts_body
             (Sample.holder "w1" 0) [Sample.holder "w2" 0]);
    reflexivity.
Defined.

Lemma transaction_history_counts_witness :
  forallb has_amount (firstn 5 Sample.six_transactions) = true /\
  exists v large,
    get_token_transaction_history Sample.SOL 10
      (Sample.answers (JObj Sample.transactions_body)) []
      = ([] ++ [helius_transactions_request Sample.SOL 10], inr v) /\
    field2 "transaction_analysis" "recent_tx_count" v = Some (JInt 6) /\
    field2 "transaction_analysis" "large_transactions" v = Some (JInt large) /\
    0 <= large <= 5 /\
    field "recommendations" v =
      Some (JList (if 3 <? large
                   then [JStr "Monitor large transfers for potential dump activity";
                         JStr "Watch for sudden spikes in transaction volume"]
                   else [])).
Proof.
  split; [reflexivity | ].
  apply (transaction_history_counts Sample.SOL 10
           (Sample.answers (JObj Sample.transactions_body)) []
           (Response 200 "" (Some (JObj Sample.transactions_body)))
           Sample.transactions_body Sample.six_transactions);
    reflexivity.
Defined.

Lemma transaction_history_reads_five_witness :
  firstn 5 Sample.six_transactions = firstn 5 Fixture.other_six_transactions /\
  nth 5 Sample.six_transactions JNull <> nth 5 Fixture.other_six_transactions JNull /\
  get_token_transaction_history Sample.SOL 10
    (Sample.answers (JObj Sample.transactions_body)) []
  = get_token_transaction_history Sample.SOL 10
      (Sample.answers (JObj Fixture.other_transactions_body)) [].
Proof.
  split; [reflexivity | ]. split; [discriminate | ].
  apply (transaction_history_reads_five Sample.SOL 10
           (Sample.answers (JObj Sample.transactions_body))
           (Sample.answers (JObj Fixture.other_transactions_body)) []
           (Response 200 "" (Some (JObj Sample.transactions_body)))
           (Response 200 "" (Some (JObj Fixture.other_transactions_body)))
           Sample.transactions_body Fixture.other_transactions_body
           Sample.six_transactions Fixture.other_six_transactions);
    reflexivity.
Defined.

Lemma trending_reads_ten_witness :
  firstn 10 Fixture.eleven_pairs = firstn 10 Fixture.other_eleven_pairs /\
  Fixture.eleven_pairs <> Fixture.other_eleven_pairs /\
  get_trending_tokens (Sample.answers (JObj [("pairs", JList Fixture.eleven_pairs)])) []
  = get_trending_tokens
      (Sample.answers (JObj [("pairs", JList Fixture.other_eleven_pairs)])) [].
Proof.
  split; [reflexivity | ]. split; [discriminate | ].
  apply (trending_reads_ten
           (Sample.answers (JObj [("pairs", JList Fixture.eleven_pairs)]))
           (Sample.answers (JObj [("pairs", JList Fixture.other_eleven_pairs)])) []
           (Response 200 "" (Some (JObj [("pairs", JList Fixture.eleven_pairs)])))
           (Response 200 "" (Some (JObj [("pairs", JList Fixture.other_eleven_pairs)])))
           [("pairs", JList Fixture.eleven_pairs)]
           [("pairs", JList Fixture.other_eleven_pairs)]
           Fixture.eleven_pairs Fixture.other_eleven_pairs);
    reflexivity.
Defined.

Lemma trending_is_all_or_nothing_witness :
  forallb (fun pair => succeeds (trending_entry pair)) (firstn 10 Fixture.broken_pairs)
    = false /\
  exists e,
    get_trending_tokens (Sample.answers (JObj [("pairs", JList Fixture.broken_pairs)])) []
    = ([] ++ [trending_request],
       inr (JObj [("status", JStr "error"); ("message", JStr (exn_msg e))])).
Proof.
  split; [reflexivity | ].
  apply (trending_is_all_or_nothing
           (Sample.answers (JObj [("pairs", JList Fixture.broken_pairs)])) []
           (Response 200 "" (Some (JObj [("pairs", JList Fixture.broken_pairs)])))
           [("pairs", JList Fixture.broken_pairs)] Fixture.broken_pairs);
    reflexivity.
Defined.


(** A price with an apostrophe is quoted with double quotes, as
    [repr] does. *)
Example price_with_apostrophe :
  field "message"
    (returned (get_token_details Sample.SOL)
              (Sample.answers (JObj Fixture.misquoted_body)))
  = Some (JStr ("could not convert string to float: "
                +:+ String double_quote ("it's" +:+ String double_quote EmptyString))).
Proof. reflexivity. Qed.

Lemma process_environment_wins_witness :
  Fixture.empty_key_environ !! "GOOGLE_API_KEY" = Some "" /\
  loaded_key (load_config Fixture.empty_key_environ Fixture.dotenv_with_key) = None.
Proof.
  split; [reflexivity | ].
  apply (process_environment_wins Fixture.empty_key_environ Fixture.dotenv_with_key "").
  reflexivity.
Defined.

Lemma extract_response_last_text_witness :
  "Risk score: 42/100" <> "" /\
  forallb passed_over Fixture.trailing_empty = true /\
  extract_response
    (AgentResult
       (Some ([Fixture.question]
              ++ Message (ContentStr "Risk score: 42/100") :: Fixture.trailing_empty))
       "{}")
  = inr "Risk score: 42/100".
Proof.
  split; [discriminate | ]. split; [reflexivity | ].
  apply (extract_response_last_text [Fixture.question]
           "Risk score: 42/100" Fixture.trailing_empty "{}");
    [discriminate | reflexivity].
Defined.

Lemma extract_response_fallback_witness :
  forallb passed_over Fixture.trailing_empty = true /\
  extract_response (AgentResult (Some Fixture.trailing_empty) "{'messages': [...]}")
    = inr "{'messages': [...]}" /\
  @extract_response ExactFloat.exact (AgentResult None "{'messages': [...]}") = inr "{'messages': [...]}".
Proof.
  split; [reflexivity | ].
  apply (extract_response_fallback Fixture.trailing_empty "{'messages': [...]}").
  reflexivity.
Defined.

Lemma extract_response_joins_text_witness :
  Fixture.mixed_blocks <> [] /\
  forallb text_ok Fixture.mixed_blocks = true /\
  extract_response
    (AgentResult
       (Some ([Fixture.question]
              ++ Message (ContentList Fixture.mixed_blocks) :: Fixture.trailing_empty))
       "{}")
  = inr (String.concat newline (flat_map block_text Fixture.mixed_blocks)).
Proof.
  split; [discriminate | ]. split; [reflexivity | ].
  apply (extract_response_joins_text [Fixture.question]
           Fixture.mixed_blocks Fixture.trailing_empty "{}");
    [discriminate | reflexivity | reflexivity].
Defined.

Lemma agent_methods_keep_ready_witness :
  let w := @World _ Fixture.answering (Some tt) (Some get_tools) true [] [] in
  ready w /\
  ready (fst (chat "analyze SOL" w)) /\
  ready (fst (close w)).
Proof.
  cbv zeta.
  assert (Hw : ready (@World _ Fixture.answering (Some tt) (Some get_tools) true [] [])).
  { intros _. split; [eexists; reflexivity | reflexivity]. }
  split; [exact Hw | ].
  destruct (@agent_methods_keep_ready _ Fixture.answering _ "analyze SOL" Hw)
    as (_ & Hchat & _ & _ & _ & _ & Hclose).
  split; [exact Hchat | exact Hclose].
Defined.


Lemma chat_builds_once_witness :
  @build_agent _ Fixture.answering (@cfg _ Fixture.answering) get_tools = inr tt /\
  asked (fst (chat "trending" (fst (chat "analyze SOL" (@new_agent _ Fixture.answering [])))))
    = [[("user", "analyze SOL")]; [("user", "trending")]].
Proof.
  split; [reflexivity | ].
  destruct (@chat_builds_once _ Fixture.answering [] "analyze SOL" "trending" tt eq_refl)
    as [Hchat _].
  rewrite Hchat. reflexivity.
Defined.

Lemma interactive_mode_forwards_every_line_witness :
  @build_agent _ Fixture.answering (@cfg _ Fixture.answering) get_tools = inr tt /\
  (forall msgs, exists res ans,
      @ainvoke _ Fixture.answering tt msgs = inr res /\ extract_response res = inr ans) /\
  forwarded ["quit"; "   "; " help "] = ["quit"; "help"] /\
  snd (@interactive_mode _ Fixture.answering (map Line ["quit"; "   "; " help "]) [])
    = inr tt /\
  asked (fst (@interactive_mode _ Fixture.answering
                (map Line ["quit"; "   "; " help "]) []))
    = map (fun u => [("user", u)]) (forwarded ["quit"; "   "; " help "]).
Proof.
  assert (Hrun : forall msgs, exists res ans,
             @ainvoke _ Fixture.answering tt msgs = inr res /\
             extract_response res = inr ans)
    by (intros msgs; eexists _, _; split; reflexivity).
  split; [reflexivity | ]. split; [exact Hrun | ]. split; [reflexivity | ].
  apply (@interactive_mode_forwards_every_line _ Fixture.answering
           ["quit"; "   "; " help "] [] tt eq_refl Hrun).
Defined.

Lemma interactive_mode_reraises_witness :
  @build_agent _ Fixture.failing (@cfg _ Fixture.failing) get_tools = inr tt /\
  strip " analyze SOL " <> "" /\
  @ainvoke _ Fixture.failing tt [("user", strip " analyze SOL ")]
    = inl Fixture.model_unavailable /\
  snd (@interactive_mode _ Fixture.failing [Line " analyze SOL "; Line "trending"] [])
    = inl Fixture.model_unavailable /\
  asked (fst (@interactive_mode _ Fixture.failing
                [Line " analyze SOL "; Line "trending"] []))
    = [[("user", strip " analyze SOL ")]].
Proof.
  assert (Hs : strip " analyze SOL " <> "") by discriminate.
  split; [reflexivity | ]. split; [exact Hs | ]. split; [reflexivity | ].
  destruct (@interactive_mode_reraises _ Fixture.failing " analyze SOL "
              [Line "trending"] [] tt Fixture.model_unavailable eq_refl Hs eq_refl)
    as (Hraised & Hasked & _).
  split; [exact Hraised | exact Hasked].
Defined.

Lemma execute_publishes_past_completion_witness :
  Executor.is_task_complete (Executor.StreamEvent true false "Risk score: 42/100")
    = true /\
  fst (Executor.execute_with (Some Fixture.streaming) (fun _ => Fixture.sample_task)
         Fixture.sample_context [])
  = [] ++ flat_map (Executor.publish Fixture.sample_task)
            [Executor.StreamEvent false false "Looking up the token"]
       ++ [Executor.ArtifactUpdate false "ctx-1" "task-1" true
             "current_result" "Result of request to agent." "Risk score: 42/100";
           Executor.StatusUpdate completed None true "ctx-1" "task-1"]
       ++ flat_map (Executor.publish Fixture.sample_task)
            [Executor.StreamEvent false false "Closing"].
Proof.
  split; [reflexivity | ].
  apply (ExecutorFacts.execute_publishes_past_completion Fixture.streaming
           (fun _ => Fixture.sample_task) Fixture.sample_context [] Fixture.sample_task
           "analyze SOL" [Executor.StreamEvent false false "Looking up the token"]
           (Executor.StreamEvent true false "Risk score: 42/100")
           [Executor.StreamEvent false false "Closing"] None);
    reflexivity.
Defined.

Lemma patch_is_idempotent_witness :
  forallb keeps_model Fixture.sample_tools = true /\
  snd (_patch_tools_for_gemini Fixture.rejecting_create_model Fixture.sample_tools)
    = inr Fixture.sample_tools_patched /\
  _patch_tools_for_gemini Fixture.rejecting_create_model Fixture.sample_tools_patched
    = ([], inr Fixture.sample_tools_patched).
Proof.
  split; [reflexivity | ]. split; [reflexivity | ].
  apply (patch_is_idempotent Fixture.rejecting_create_model Fixture.sample_tools
           Fixture.sample_tools_patched);
    reflexivity.
Defined.

Lemma patch_keeps_names_witness :
  snd (_patch_tools_for_gemini Fixture.rejecting_create_model Fixture.sample_tools)
    = inr Fixture.sample_tools_patched /\
  map st_name Fixture.sample_tools_patched = map st_name Fixture.sample_tools.
Proof.
  split; [reflexivity | ].
  apply (patch_keeps_names Fixture.rejecting_create_model Fixture.sample_tools
           Fixture.sample_tools_patched).
  reflexivity.
Defined.

Lemma patched_tools_have_items_witness :
  forallb keeps_model Fixture.sample_tools = true /\
  lacks_items Fixture.orders_schema "order_desc" = true /\
  forallb has_items Fixture.sample_tools_patched = true.
Proof.
  split; [reflexivity | ]. split; [reflexivity | ].
  apply (patched_tools_have_items Fixture.rejecting_create_model Fixture.sample_tools
           Fixture.sample_tools_patched);
    reflexivity.
Defined.
